(** * SDS200 scanner client: a shallow embedding of [sds200_scanner.py]

    The development follows the Python source function by function.

    - Python [str] values are [string]s; a character is read as its code
      point (the wire protocol is ASCII).
    - The [scanner_data] dictionary has a fixed key set and is a record;
      the nested [all_responses] dictionary is a finite map.
    - Exceptions are explicit: every operation that can raise lives in an
      exception monad, and [try ... except Exception] is a combinator that
      catches exactly the subclasses of [Exception].
    - Everything the outside world decides (does the TCP connect succeed,
      what does [recv] return, what time is it, can the data file be
      written) is an explicit argument of the operation that asks for it.
    - Calls to [logger] do not touch the scanner object and are left out. *)

From Stdlib Require Import ZArith Lia Bool Ascii String List Sorted.
From stdpp Require Import base option list strings gmap.
Import ListNotations.

#[local] Open Scope string_scope.
#[local] Open Scope list_scope.

(** ** Python strings *)

Module PyStr.

Definition comma : ascii := ","%char.
Definition CR : ascii := "013"%char.

(** [sep.join(parts)] for [sep = ','] *)
Fixpoint join_comma (parts : list string) : string :=
  match parts with
  | [] => ""
  | [p] => p
  | p :: ps => p +:+ String comma (join_comma ps)
  end.

(** [s.split(',')]: never empty, the empty string gives [['']] *)
Fixpoint split_comma (s : string) : list string :=
  match s with
  | EmptyString => [""]
  | String c s' =>
      if Ascii.eqb c comma then "" :: split_comma s'
      else match split_comma s' with
           | [] => [String c ""]
           | p :: ps => String c p :: ps
           end
  end.

(** [c.isspace()] on the code points below 256:
    TAB LF VT FF CR, FS GS RS US, SPACE, NEL and NBSP *)
Definition isspace (c : ascii) : bool :=
  let n := nat_of_ascii c in
  ((9 <=? n)%nat && (n <=? 13)%nat) || ((28 <=? n)%nat && (n <=? 32)%nat)
  || (n =? 133)%nat || (n =? 160)%nat.

Fixpoint lstrip (s : string) : string :=
  match s with
  | EmptyString => ""
  | String c s' => if isspace c then lstrip s' else s
  end.

Definition rstrip (s : string) : string :=
  String.rev (lstrip (String.rev s)).

(** [s.strip()] *)
Definition strip (s : string) : string := rstrip (lstrip s).

(** [s.endswith(suffix)] *)
Definition endswith (s suffix : string) : bool :=
  String.prefix (String.rev suffix) (String.rev s).

(** truth value of a string: [bool(s)] *)
Definition truthy (s : string) : bool :=
  match s with EmptyString => false | _ => true end.

Definition has_comma (s : string) : bool :=
  existsb (Ascii.eqb comma) (list_ascii_of_string s).

End PyStr.

(** ** Exceptions *)

Inductive exn : Type :=
| socket_timeout                        (* socket.timeout *)
| OSError (msg : string)                (* refused, reset, broken pipe, ... *)
| UnicodeDecodeError (msg : string)
| AttributeError (msg : string)         (* method call on None *)
| IndexError (msg : string)
| ValueError (msg : string)
| TypeError (msg : string)
| KeyboardInterrupt.                    (* a BaseException, not an Exception *)

(** [isinstance(e, Exception)] *)
Definition is_Exception (e : exn) : bool :=
  match e with KeyboardInterrupt => false | _ => true end.

(** [isinstance(e, socket.timeout)] *)
Definition is_timeout (e : exn) : bool :=
  match e with socket_timeout => true | _ => false end.

(** [str(e)] *)
Definition str_exn (e : exn) : string :=
  match e with
  | socket_timeout => "timed out"
  | OSError m | UnicodeDecodeError m | AttributeError m | IndexError m
  | ValueError m | TypeError m => m
  | KeyboardInterrupt => ""
  end.

Inductive res (A : Type) : Type :=
| Ret (a : A)
| Raise (e : exn).
Arguments Ret {A} a.
Arguments Raise {A} e.

Definition res_bind {A B} (m : res A) (k : A -> res B) : res B :=
  match m with Ret a => k a | Raise e => Raise e end.

(** [try: body / except Exception as e: handler e] without state *)
Definition res_try {A} (body : res A) (handler : exn -> res A) : res A :=
  match body with
  | Ret a => Ret a
  | Raise e => if is_Exception e then handler e else Raise e
  end.

(** [parts[i]] *)
Definition index (parts : list string) (i : nat) : res string :=
  match parts !! i with
  | Some p => Ret p
  | None => Raise (IndexError "list index out of range")
  end.

(** ** Values stored in the snapshot *)

(** the dictionary built by [parse_response] for an STS reply *)
Record StsFields : Type := {
  sts_frequency : option string;
  sts_signal_strength : option string;
  sts_mode : option string;
  sts_volume : option string;
  sts_squelch : option string
}.

(** what [parse_response] can return: [None], a [str] or a [dict] *)
Inductive pyval : Type :=
| PyNone
| PyStr (s : string)
| PyDict (d : StsFields).

(** [parts[i] if len(parts) > i else None] *)
Definition index_or_None (parts : list string) (i : nat) : res (option string) :=
  if (i <? length parts)%nat
  then res_bind (index parts i) (fun p => Ret (Some p))
  else Ret None.

Definition parse_body (response command_type : string) : res pyval :=
  let parts := PyStr.split_comma response in
  if String.eqb command_type "MDL" && (2 <=? length parts)%nat then
    res_bind (index parts 1) (fun p => Ret (PyStr p))
  else if String.eqb command_type "VER" && (2 <=? length parts)%nat then
    res_bind (index parts 1) (fun p => Ret (PyStr p))
  else if String.eqb command_type "STS" && (2 <=? length parts)%nat then
    res_bind (index_or_None parts 1) (fun f =>
    res_bind (index_or_None parts 2) (fun s =>
    res_bind (index_or_None parts 3) (fun m =>
    res_bind (index_or_None parts 4) (fun v =>
    res_bind (index_or_None parts 5) (fun q =>
    Ret (PyDict {| sts_frequency := f; sts_signal_strength := s;
                   sts_mode := m; sts_volume := v; sts_squelch := q |}))))))
  else Ret (PyStr response).

(** [SDS200Scanner.parse_response] *)
Definition parse_response (response command_type : string) : res pyval :=
  if negb (PyStr.truthy response) then Ret PyNone
  else res_try (parse_body response command_type)
               (fun _ => Ret (PyStr response)).

(** ** The scanner object and its surroundings *)

(** an instant of the process clock; [datetime.now().isoformat()] is kept
    as the instant it renders *)
Definition instant : Type := Z.

(** [self.scanner_data] *)
Record ScannerData : Type := {
  timestamp : option instant;
  connected : bool;
  model : pyval;
  firmware : pyval;
  frequency : option string;
  signal_strength : option string;
  volume : option string;
  squelch : option string;
  mode : option string;
  status : option string;
  error : option string;
  all_responses : gmap string string
}.

Definition set_timestamp (v : option instant) (d : ScannerData) : ScannerData :=
  {| timestamp := v; connected := connected d; model := model d;
     firmware := firmware d; frequency := frequency d;
     signal_strength := signal_strength d; volume := volume d;
     squelch := squelch d; mode := mode d; status := status d;
     error := error d; all_responses := all_responses d |}.

Definition set_connected (v : bool) (d : ScannerData) : ScannerData :=
  {| timestamp := timestamp d; connected := v; model := model d;
     firmware := firmware d; frequency := frequency d;
     signal_strength := signal_strength d; volume := volume d;
     squelch := squelch d; mode := mode d; status := status d;
     error := error d; all_responses := all_responses d |}.

Definition set_model (v : pyval) (d : ScannerData) : ScannerData :=
  {| timestamp := timestamp d; connected := connected d; model := v;
     firmware := firmware d; frequency := frequency d;
     signal_strength := signal_strength d; volume := volume d;
     squelch := squelch d; mode := mode d; status := status d;
     error := error d; all_responses := all_responses d |}.

Definition set_firmware (v : pyval) (d : ScannerData) : ScannerData :=
  {| timestamp := timestamp d; connected := connected d; model := model d;
     firmware := v; frequency := frequency d;
     signal_strength := signal_strength d; volume := volume d;
     squelch := squelch d; mode := mode d; status := status d;
     error := error d; all_responses := all_responses d |}.

Definition set_status (v : option string) (d : ScannerData) : ScannerData :=
  {| timestamp := timestamp d; connected := connected d; model := model d;
     firmware := firmware d; frequency := frequency d;
     signal_strength := signal_strength d; volume := volume d;
     squelch := squelch d; mode := mode d; status := v;
     error := error d; all_responses := all_responses d |}.

Definition set_error (v : option string) (d : ScannerData) : ScannerData :=
  {| timestamp := timestamp d; connected := connected d; model := model d;
     firmware := firmware d; frequency := frequency d;
     signal_strength := signal_strength d; volume := volume d;
     squelch := squelch d; mode := mode d; status := status d;
     error := v; all_responses := all_responses d |}.

(** [self.scanner_data["all_responses"][key] = response] *)
Definition record_response (key response : string) (d : ScannerData) : ScannerData :=
  {| timestamp := timestamp d; connected := connected d; model := model d;
     firmware := firmware d; frequency := frequency d;
     signal_strength := signal_strength d; volume := volume d;
     squelch := squelch d; mode := mode d; status := status d;
     error := error d;
     all_responses := <[key := response]> (all_responses d) |}.

(** [self.scanner_data.update(status)] for the dictionary of an STS reply *)
Definition update (s : StsFields) (d : ScannerData) : ScannerData :=
  {| timestamp := timestamp d; connected := connected d; model := model d;
     firmware := firmware d; frequency := sts_frequency s;
     signal_strength := sts_signal_strength s; volume := sts_volume s;
     squelch := sts_squelch s; mode := sts_mode s; status := status d;
     error := error d; all_responses := all_responses d |}.

(** a socket object, as far as the client can tell its states apart *)
Inductive sock : Type :=
| SockFresh          (* created, not connected *)
| SockConnected
| SockClosed.

Record Scanner : Type := {
  ip : string;
  port : Z;
  socket : option sock;
  scanner_data : ScannerData
}.

(** what reached the network layer, newest first *)
Inductive wire_event : Type :=
| WConnect (host : string) (tcp_port : Z)
| WSend (data : string)
| WClose.

(** what [DATA_FILE] holds after a write: the JSON of a whole snapshot,
    or what is left when the file was opened (and so emptied) and the
    dump failed: nothing, or the beginning of a snapshot *)
Inductive file_content : Type :=
| Complete (d : ScannerData)
| Damaged.

Record World : Type := {
  self : Scanner;
  wire : list wire_event;
  (** successive contents of [DATA_FILE], newest first *)
  data_file : list file_content
}.

(** [SDS200Scanner.__init__] *)
Definition init (ip0 : string) (port0 : Z) : Scanner :=
  {| ip := ip0; port := port0; socket := None;
     scanner_data :=
       {| timestamp := None; connected := false; model := PyNone;
          firmware := PyNone; frequency := None; signal_strength := None;
          volume := None; squelch := None; mode := None; status := None;
          error := None; all_responses := ∅ |} |}.

Definition boot (ip0 : string) (port0 : Z) : World :=
  {| self := init ip0 port0; wire := []; data_file := [] |}.

Definition data (w : World) : ScannerData := scanner_data (self w).

(** ** The monad of the client: state and exceptions *)

Definition M (A : Type) : Type := World -> res A * World.

Definition ret {A} (a : A) : M A := fun w => (Ret a, w).

Definition raise {A} (e : exn) : M A := fun w => (Raise e, w).

Definition bind {A B} (m : M A) (k : A -> M B) : M B :=
  fun w => match m w with
           | (Ret a, w') => k a w'
           | (Raise e, w') => (Raise e, w')
           end.

Definition lift {A} (r : res A) : M A := fun w => (r, w).

Notation "'let!' x ':=' m 'in' k" := (bind m (fun x => k))
  (at level 10, x name, m at level 100, k at level 200).
Notation "m '>>' k" := (bind m (fun _ => k))
  (at level 90, right associativity).

(** [try: body / except ...]: [handler e] is [None] when no clause
    matches [e], which then propagates. State changes made before the
    exception stay. *)
Definition try_with {A} (body : M A) (handler : exn -> option (M A)) : M A :=
  fun w => match body w with
           | (Ret a, w') => (Ret a, w')
           | (Raise e, w') =>
               match handler e with
               | Some h => h w'
               | None => (Raise e, w')
               end
           end.

(** the clause [except Exception as e] *)
Definition except_Exception {A} (h : exn -> M A) (e : exn) : option (M A) :=
  if is_Exception e then Some (h e) else None.

Definition set_self (f : Scanner -> Scanner) : M unit :=
  fun w => (Ret tt, {| self := f (self w); wire := wire w;
                       data_file := data_file w |}).

(** [self.socket = v] *)
Definition assign_socket (v : option sock) : M unit :=
  set_self (fun s => {| ip := ip s; port := port s; socket := v;
                        scanner_data := scanner_data s |}).

(** an in-place change of [self.scanner_data] *)
Definition mutate (f : ScannerData -> ScannerData) : M unit :=
  set_self (fun s => {| ip := ip s; port := port s; socket := socket s;
                        scanner_data := f (scanner_data s) |}).

Definition emit (ev : wire_event) : M unit :=
  fun w => (Ret tt, {| self := self w; wire := ev :: wire w;
                       data_file := data_file w |}).

Definition get_self : M Scanner := fun w => (Ret (self w), w).

(** ** What the outside world decides *)

(** a failure of a socket call: [socket.timeout] or another [OSError] *)
Inductive sock_err : Type :=
| ErrTimeout
| ErrOS (msg : string).

Definition exn_of (e : sock_err) : exn :=
  match e with ErrTimeout => socket_timeout | ErrOS m => OSError m end.

(** [bytes]: either the UTF-8 encoding of a text, or not UTF-8 at all *)
Inductive bytes : Type :=
| Encoded (text : string)
| Malformed (msg : string).

(** [s.encode()] *)
Definition encode (s : string) : bytes := Encoded s.

(** [b.decode()] *)
Definition decode (b : bytes) : res string :=
  match b with
  | Encoded t => Ret t
  | Malformed m => Raise (UnicodeDecodeError m)
  end.

(** outcome of [socket.socket(...)] followed by [connect(...)] *)
Inductive connect_outcome : Type :=
| ConnectOk
| CreateFails (msg : string)      (* socket.socket(...) raises *)
| ConnectFails (e : sock_err).    (* connect(...) raises *)

Inductive recv_outcome : Type :=
| RecvFails (e : sock_err)
| RecvBytes (b : bytes).

(** one command/response exchange: outcome of [sendall], then of [recv] *)
Record exchange : Type := {
  x_send : option sock_err;
  x_recv : recv_outcome
}.

(** [Some msg]: the call raises [OSError(msg)] *)
Definition os_outcome : Type := option string.

(** [time.sleep] once it has accepted its argument: it returns, or the
    user interrupts it *)
Inductive sleep_outcome : Type :=
| Slept
| Interrupted.

(** the argument of [time.sleep]: a number of seconds, or an object that
    is not a number *)
Inductive duration : Type :=
| Seconds (n : Z)
| NotANumber.

(** writing [DATA_FILE]: [open(DATA_FILE, 'w')] raises, or it succeeds
    and [json.dump] raises, or both succeed *)
Inductive save_outcome : Type :=
| SaveOk
| OpenFails (msg : string)
| DumpFails (msg : string).

(** ** Socket calls *)

Definition no_attribute (name : string) : exn :=
  AttributeError ("'NoneType' object has no attribute '" +:+ name +:+ "'").

(** [socket.socket(socket.AF_INET, socket.SOCK_STREAM)] *)
Definition socket_socket (o : connect_outcome) : M sock :=
  match o with
  | CreateFails m => raise (OSError m)
  | _ => ret SockFresh
  end.

(** [self.socket.settimeout(SOCKET_TIMEOUT)] *)
Definition sock_settimeout : M unit :=
  let! s := get_self in
  match socket s with
  | None => raise (no_attribute "settimeout")
  | Some _ => ret tt
  end.

(** [self.socket.connect((self.ip, self.port))] *)
Definition sock_connect (o : connect_outcome) : M unit :=
  let! s := get_self in
  match socket s with
  | None => raise (no_attribute "connect")
  | Some _ =>
      emit (WConnect (ip s) (port s)) >>
      match o with
      | ConnectFails e => raise (exn_of e)
      | _ => assign_socket (Some SockConnected)
      end
  end.

(** [self.socket.sendall(data)] *)
Definition sock_sendall (o : option sock_err) (b : bytes) : M unit :=
  let! s := get_self in
  match socket s with
  | None => raise (no_attribute "sendall")
  | Some st =>
      (match b with Encoded t => emit (WSend t) | Malformed _ => ret tt end) >>
      match st with
      | SockConnected =>
          match o with
          | Some e => raise (exn_of e)
          | None => ret tt
          end
      | SockFresh => raise (OSError "[Errno 32] Broken pipe")
      | SockClosed => raise (OSError "[Errno 9] Bad file descriptor")
      end
  end.

(** [self.socket.recv(4096)] *)
Definition sock_recv (o : recv_outcome) : M bytes :=
  let! s := get_self in
  match socket s with
  | None => raise (no_attribute "recv")
  | Some SockConnected =>
      match o with
      | RecvFails e => raise (exn_of e)
      | RecvBytes b => ret b
      end
  | Some SockFresh => raise (OSError "[Errno 107] Transport endpoint is not connected")
  | Some SockClosed => raise (OSError "[Errno 9] Bad file descriptor")
  end.

(** [self.socket.close()]: closing a closed socket does nothing; a socket
    whose close fails is closed all the same *)
Definition sock_close (o : os_outcome) : M unit :=
  let! s := get_self in
  match socket s with
  | None => raise (no_attribute "close")
  | Some SockClosed => ret tt
  | Some _ =>
      emit WClose >>
      assign_socket (Some SockClosed) >>
      match o with
      | Some m => raise (OSError m)
      | None => ret tt
      end
  end.

(** does [time.sleep] accept this argument *)
Definition sleeps (seconds : duration) : bool :=
  match seconds with
  | Seconds n => (0 <=? n)%Z
  | NotANumber => false
  end.

(** [time.sleep(seconds)]: the argument is checked first *)
Definition sleep (o : sleep_outcome) (seconds : duration) : M unit :=
  match seconds with
  | NotANumber =>
      raise (TypeError "an integer is required")
  | Seconds n =>
      if (n <? 0)%Z then raise (ValueError "sleep length must be non-negative")
      else match o with
           | Slept => ret tt
           | Interrupted => raise KeyboardInterrupt
           end
  end.

(** ** The methods of [SDS200Scanner] *)

Definition connect (o : connect_outcome) : M bool :=
  try_with
    (let! s := socket_socket o in
     assign_socket (Some s) >>
     sock_settimeout >>
     sock_connect o >>
     mutate (set_connected true) >>
     mutate (set_error None) >>
     ret true)
    (except_Exception (fun e =>
     mutate (set_connected false) >>
     mutate (set_error (Some (str_exn e))) >>
     ret false)).

Definition disconnect (o : os_outcome) : M unit :=
  try_with
    (let! s := get_self in
     match socket s with
     | Some _ =>
         sock_close o >>
         mutate (set_connected false)
     | None => ret tt
     end)
    (except_Exception (fun e => ret tt)).

Definition send_command (x : exchange) (command : string) : M (option string) :=
  let command' :=
    if negb (PyStr.endswith command (String PyStr.CR ""))
    then command +:+ String PyStr.CR ""
    else command in
  try_with
    (sock_sendall (x_send x) (encode command') >>
     let! b := sock_recv (x_recv x) in
     let! t := lift (decode b) in
     let response := PyStr.strip t in
     ret (Some response))
    (fun e =>
       if is_timeout e then Some (ret None)
       else except_Exception (fun _ => ret None) e).

(** truth value of what [send_command] returned *)
Definition truthy (response : option string) : bool :=
  match response with
  | Some r => PyStr.truthy r
  | None => false
  end.

Definition get_model (x : exchange) : M unit :=
  let! response := send_command x "MDL" in
  match response with
  | Some r =>
      if PyStr.truthy r then
        let! v := lift (parse_response r "MDL") in
        mutate (set_model v) >>
        mutate (record_response "MDL" r)
      else ret tt
  | None => ret tt
  end.

Definition get_firmware (x : exchange) : M unit :=
  let! response := send_command x "VER" in
  match response with
  | Some r =>
      if PyStr.truthy r then
        let! v := lift (parse_response r "VER") in
        mutate (set_firmware v) >>
        mutate (record_response "VER" r)
      else ret tt
  | None => ret tt
  end.

Definition get_status (x : exchange) : M unit :=
  let! response := send_command x "STS" in
  match response with
  | Some r =>
      if PyStr.truthy r then
        let! st := lift (parse_response r "STS") in
        (match st with
         | PyDict d => mutate (update d)
         | _ => ret tt
         end) >>
        mutate (set_status (Some r)) >>
        mutate (record_response "STS" r)
      else ret tt
  | None => ret tt
  end.

Definition pull_all_data (now : instant) (c : connect_outcome)
    (xm xv xs : exchange) : M bool :=
  mutate (set_timestamp (Some now)) >>
  let! s := get_self in
  let! go :=
    (if negb (connected (scanner_data s))
     then connect c
     else ret true) in
  if negb go then ret false
  else
    try_with
      (get_model xm >>
       get_firmware xv >>
       get_status xs >>
       ret true)
      (except_Exception (fun e =>
       mutate (set_error (Some (str_exn e))) >>
       ret false)).

(** the file gets a new content *)
Definition set_file (c : file_content) : M unit :=
  fun w => (Ret tt, {| self := self w; wire := wire w;
                       data_file := c :: data_file w |}).

(** [with open(DATA_FILE, 'w') as f: json.dump(self.scanner_data, f)]:
    a failed [open] leaves the file as it was; a successful one empties
    it, and the dump then replaces the content by the current snapshot
    or, failing, leaves the file damaged *)
Definition write_data_file (o : save_outcome) : M unit :=
  match o with
  | OpenFails m => raise (OSError m)
  | DumpFails m => set_file Damaged >> raise (OSError m)
  | SaveOk => let! s := get_self in set_file (Complete (scanner_data s))
  end.

Definition save_to_file (o : save_outcome) : M unit :=
  try_with (write_data_file o) (except_Exception (fun e => ret tt)).

Definition get_data : M ScannerData :=
  let! s := get_self in ret (scanner_data s).

(** ** The poll loop *)

(** everything one iteration of [continuous_scan] asks of the world *)
Record cycle_env : Type := {
  env_connect : connect_outcome;     (* [scanner.connect()] of the loop *)
  env_now : instant;                 (* [datetime.now()] *)
  env_reconnect : connect_outcome;   (* [self.connect()] of [pull_all_data] *)
  env_mdl : exchange;
  env_ver : exchange;
  env_sts : exchange;
  env_save : save_outcome;           (* writing [DATA_FILE] *)
  env_sleep : sleep_outcome;         (* [time.sleep(interval)] *)
  env_close : os_outcome;            (* [close()] of the handler *)
  env_cooldown : sleep_outcome       (* [time.sleep(5)] of the handler *)
}.

Inductive loop_ctl : Type :=
| Continue
| Break.

(** the body of [while True] in [continuous_scan] *)
Definition scan_once (interval : duration) (env : cycle_env) : M loop_ctl :=
  try_with
    (let! s := get_self in
     (if negb (connected (scanner_data s))
      then connect (env_connect env) >> ret tt
      else ret tt) >>
     pull_all_data (env_now env) (env_reconnect env)
                   (env_mdl env) (env_ver env) (env_sts env) >>
     save_to_file (env_save env) >>
     sleep (env_sleep env) interval >>
     ret Continue)
    (fun e =>
       match e with
       | KeyboardInterrupt => Some (ret Break)
       | _ =>
           except_Exception (fun _ =>
             disconnect (env_close env) >>
             sleep (env_cooldown env) (Seconds 5) >>
             ret Continue) e
       end).

(** [continuous_scan], observed for as many iterations as there are
    environments *)
Fixpoint continuous_scan (interval : duration) (envs : list cycle_env) : M unit :=
  match envs with
  | [] => ret tt
  | env :: rest =>
      let! ctl := scan_once interval env in
      match ctl with
      | Break => ret tt
      | Continue => continuous_scan interval rest
      end
  end.

(** the world after a computation, and what it returned *)
Definition after {A} (m : M A) (w : World) : World := snd (m w).
Definition outcome {A} (m : M A) (w : World) : res A := fst (m w).

(** the field of the snapshot fed by position [i] of an STS reply *)
Definition sts_field (i : nat) (d : ScannerData) : option string :=
  match i with
  | 1 => frequency d
  | 2 => signal_strength d
  | 3 => mode d
  | 4 => volume d
  | 5 => squelch d
  | _ => None
  end%nat.

(** the timestamp a reader finds in a content of the data file, when
    the content is a whole snapshot *)
Definition stamp_of (c : file_content) : option (option instant) :=
  match c with
  | Complete d => Some (timestamp d)
  | Damaged => None
  end.

(** timestamps of the snapshots written to the data file, oldest first *)
Definition published_stamps (w : World) : list (option instant) :=
  rev (omap stamp_of (data_file w)).

(** the number of [connect] calls that reached the network layer *)
Definition connects (evs : list wire_event) : nat :=
  length (List.filter
            (fun ev => match ev with WConnect _ _ => true | _ => false end)
            evs).

(** an exchange that fails, and not by a timeout *)
Definition io_failure (x : exchange) : bool :=
  match x_send x, x_recv x with
  | Some (ErrOS _), _ => true
  | None, RecvFails (ErrOS _) => true
  | None, RecvBytes (Malformed _) => true
  | _, _ => false
  end.

(** an exchange that times out *)
Definition times_out (x : exchange) : bool :=
  match x_send x, x_recv x with
  | Some ErrTimeout, _ => true
  | None, RecvFails ErrTimeout => true
  | _, _ => false
  end.

(** the command as it goes on the wire *)
Definition framed (command : string) : string :=
  if negb (PyStr.endswith command (String PyStr.CR ""))
  then command +:+ String PyStr.CR ""
  else command.

(** the only way for [send_command] to have a response *)
Definition reply_of (x : exchange) (s : option sock) : option string :=
  match s, x_send x, x_recv x with
  | Some SockConnected, None, RecvBytes (Encoded t) => Some (PyStr.strip t)
  | _, _, _ => None
  end.

(** a world changed in its socket handle, its snapshot and by new wire
    events (newest first) *)
Definition put (sk : option sock) (f : ScannerData -> ScannerData)
    (evs : list wire_event) (w : World) : World :=
  {| self := {| ip := ip (self w); port := port (self w); socket := sk;
                scanner_data := f (data w) |};
     wire := evs ++ wire w;
     data_file := data_file w |}.

(** [sendall] reaches the wire when there is a socket object *)
Definition attempt (command : string) (sk : option sock) : list wire_event :=
  match sk with
  | Some _ => [WSend (framed command)]
  | None => []
  end.

(** how [get_model], [get_firmware] and [get_status] fold a response
    into the snapshot *)
Definition fold_model (response : option string) (d : ScannerData) : ScannerData :=
  match response with
  | Some r =>
      if PyStr.truthy r then
        match parse_response r "MDL" with
        | Ret v => record_response "MDL" r (set_model v d)
        | Raise _ => d
        end
      else d
  | None => d
  end.

Definition fold_firmware (response : option string) (d : ScannerData) : ScannerData :=
  match response with
  | Some r =>
      if PyStr.truthy r then
        match parse_response r "VER" with
        | Ret v => record_response "VER" r (set_firmware v d)
        | Raise _ => d
        end
      else d
  | None => d
  end.

Definition fold_status (response : option string) (d : ScannerData) : ScannerData :=
  match response with
  | Some r =>
      if PyStr.truthy r then
        match parse_response r "STS" with
        | Ret st =>
            record_response "STS" r
              (set_status (Some r)
                 (match st with PyDict f => update f d | _ => d end))
        | Raise _ => d
        end
      else d
  | None => d
  end.

(** the same world with a scanner that never opened a socket *)
Definition no_socket (w : World) : World :=
  {| self := {| ip := ip (self w); port := port (self w); socket := None;
                scanner_data := scanner_data (self w) |};
     wire := wire w; data_file := data_file w |}.

(** a device that is slow to answer, and one whose link broke *)
Definition x_timeout : exchange :=
  {| x_send := None; x_recv := RecvFails ErrTimeout |}.
Definition x_broken : exchange :=
  {| x_send := Some (ErrOS "[Errno 32] Broken pipe");
     x_recv := RecvFails (ErrOS "[Errno 104] Connection reset by peer") |}.
Definition x_reply (text : string) : exchange :=
  {| x_send := None; x_recv := RecvBytes (Encoded text) |}.

(** the snapshot after the three queries *)
Definition folded (xm xv xs : exchange) (sk : option sock)
    (d : ScannerData) : ScannerData :=
  fold_status (reply_of xs sk)
    (fold_firmware (reply_of xv sk) (fold_model (reply_of xm sk) d)).

(** the three commands on the wire, newest first *)
Definition three_queries (sk : option sock) : list wire_event :=
  attempt "STS" sk ++ attempt "VER" sk ++ attempt "MDL" sk.

(** the world once the snapshot went to the data file, or failed to *)
Definition saved (o : save_outcome) (w : World) : World :=
  match o with
  | SaveOk => {| self := self w; wire := wire w;
                 data_file := Complete (data w) :: data_file w |}
  | OpenFails _ => w
  | DumpFails _ => {| self := self w; wire := wire w;
                      data_file := Damaged :: data_file w |}
  end.

(** the world in which an iteration of the loop starts its pull *)
Definition prepared (env : cycle_env) (w : World) : World :=
  if connected (data w) then w else after (connect (env_connect env)) w.

(** the world in which an iteration of the loop reaches its sleep *)
Definition cycled (env : cycle_env) (w : World) : World :=
  saved (env_save env)
    (after (pull_all_data (env_now env) (env_reconnect env)
              (env_mdl env) (env_ver env) (env_sts env))
           (prepared env w)).

(** the world in which an iteration of the loop ends: when [time.sleep]
    rejects the interval, the handler of the loop disconnects *)
Definition settled (interval : duration) (env : cycle_env) (w : World) : World :=
  if sleeps interval then cycled env w
  else after (disconnect (env_close env)) (cycled env w).

(** how an iteration of the loop ends: it asks for the next one, it
    breaks out of the loop, or the interrupt of the cool-down escapes *)
Definition verdict (interval : duration) (env : cycle_env) : res loop_ctl :=
  if sleeps interval then
    match env_sleep env with
    | Slept => Ret Continue
    | Interrupted => Ret Break
    end
  else
    match env_cooldown env with
    | Slept => Ret Continue
    | Interrupted => Raise KeyboardInterrupt
    end.

(** does the loop go on after this iteration: not when the sleep that
    ends it, or the cool-down of the handler, is interrupted *)
Definition goes_on (interval : duration) (env : cycle_env) : bool :=
  match (if sleeps interval then env_sleep env else env_cooldown env) with
  | Slept => true
  | Interrupted => false
  end.

(** a reply line as the device sends it, with its terminator *)
Definition line (s : string) : string := s +:+ String PyStr.CR "".

(** a scanner that has just connected, and one that has completed a
    poll cycle at instant 100 *)
Definition online : World :=
  after (connect ConnectOk) (boot "192.168.2.251" 10001%Z).
Definition seasoned : World :=
  after (pull_all_data 100%Z ConnectOk
           (x_reply (line "MDL,BCD325P2,"))
           (x_reply (line "VER,1.02.00,"))
           (x_reply (line "STS,154.6700,60,NFM,8,2")))
        (boot "192.168.2.251" 10001%Z).

(** an iteration in which the device answers every query and nothing
    fails, and one in which the device cannot be reached *)
Definition steady (now : instant) : cycle_env :=
  {| env_connect := ConnectOk; env_now := now; env_reconnect := ConnectOk;
     env_mdl := x_reply (line "MDL,BCD325P2,");
     env_ver := x_reply (line "VER,1.02.00,");
     env_sts := x_reply (line "STS,154.6700,60,NFM,8,2");
     env_save := SaveOk; env_sleep := Slept;
     env_close := None; env_cooldown := Slept |}.
Definition unreachable (now : instant) : cycle_env :=
  {| env_connect := ConnectFails (ErrOS "[Errno 113] No route to host");
     env_now := now;
     env_reconnect := ConnectFails ErrTimeout;
     env_mdl := x_timeout; env_ver := x_timeout; env_sts := x_timeout;
     env_save := SaveOk; env_sleep := Slept;
     env_close := None; env_cooldown := Slept |}.

(** the link is up for this pull: the scanner is connected on a live
    socket with no error pending, or it is not connected and the connect
    of this pull succeeds *)
Definition link_up (w : World) (c : connect_outcome) : Prop :=
  if connected (data w)
  then socket (self w) = Some SockConnected /\ error (data w) = None
  else c = ConnectOk.

(** the instant an iteration publishes, when its write succeeds *)
Definition stamp_written (env : cycle_env) : list instant :=
  match env_save env with
  | SaveOk => [env_now env]
  | OpenFails _ | DumpFails _ => []
  end.

(** the instants of the snapshots that reach the data file while the
    loop runs through [envs] *)
Fixpoint stamped (interval : duration) (envs : list cycle_env) : list instant :=
  match envs with
  | [] => []
  | env :: rest =>
      stamp_written env
      ++ (if goes_on interval env then stamped interval rest else [])
  end.

(** an iteration like [steady] at a time when the data file cannot be
    opened for writing *)
Definition read_only (now : instant) : cycle_env :=
  {| env_connect := ConnectOk; env_now := now; env_reconnect := ConnectOk;
     env_mdl := x_reply (line "MDL,BCD325P2,");
     env_ver := x_reply (line "VER,1.02.00,");
     env_sts := x_reply (line "STS,154.6700,60,NFM,8,2");
     env_save := OpenFails "[Errno 30] Read-only file system";
     env_sleep := Slept; env_close := None; env_cooldown := Slept |}.

(** an iteration like [steady] in which the [close] of the loop's
    handler fails *)
Definition stuck (now : instant) : cycle_env :=
  {| env_connect := ConnectOk; env_now := now; env_reconnect := ConnectOk;
     env_mdl := x_reply (line "MDL,BCD325P2,");
     env_ver := x_reply (line "VER,1.02.00,");
     env_sts := x_reply (line "STS,154.6700,60,NFM,8,2");
     env_save := SaveOk; env_sleep := Slept;
     env_close := Some "[Errno 5] Input/output error";
     env_cooldown := Slept |}.

(** an iteration in which the link is broken: every exchange fails *)
Definition severed (now : instant) : cycle_env :=
  {| env_connect := ConnectOk; env_now := now; env_reconnect := ConnectOk;
     env_mdl := x_broken; env_ver := x_broken; env_sts := x_broken;
     env_save := SaveOk; env_sleep := Slept;
     env_close := None; env_cooldown := Slept |}.


(** what [parse_response] makes of a recorded reply *)
Definition parsed (r command_type : string) : pyval :=
  match parse_response r command_type with
  | Ret v => v
  | Raise _ => PyNone
  end.

(** a snapshot that agrees with the raw replies it records: only the
    three mnemonics are recorded, [status] is the recorded STS reply, and
    [model] and [firmware] are the parses of the recorded MDL and VER
    replies *)
Definition coherent (d : ScannerData) : Prop :=
  dom (all_responses d) ⊆ ({["MDL"]} ∪ {["VER"]} ∪ {["STS"]} : gset string) /\
  status d = all_responses d !! "STS" /\
  model d = from_option (fun r => parsed r "MDL") PyNone (all_responses d !! "MDL") /\
  firmware d = from_option (fun r => parsed r "VER") PyNone (all_responses d !! "VER").

(** an iteration like [steady] whose sleep is interrupted by the user *)
Definition interrupted (now : instant) : cycle_env :=
  {| env_connect := ConnectOk; env_now := now; env_reconnect := ConnectOk;
     env_mdl := x_reply (line "MDL,BCD325P2,");
     env_ver := x_reply (line "VER,1.02.00,");
     env_sts := x_reply (line "STS,154.6700,60,NFM,8,2");
     env_save := SaveOk; env_sleep := Interrupted;
     env_close := None; env_cooldown := Slept |}.

(** * The control server, [server.py] *)

Module Server.

(** exceptions of the control server; all are subclasses of [Exception] *)
Inductive sexn : Type :=
| SOSError (msg : string)        (* Popen or a write on the connection fails *)
| ValueError (msg : string)      (* int() of a malformed header *)
| TimeoutExpired (msg : string). (* wait(timeout=5) *)

(** [str(e)] *)
Definition str_sexn (e : sexn) : string :=
  match e with SOSError m | ValueError m | TimeoutExpired m => m end.

Inductive sres (A : Type) : Type :=
| Done (a : A)
| Failed (e : sexn).
Arguments Done {A} a.
Arguments Failed {A} e.

(** one line of a response head; [Status] stands for the status line
    that [send_response] buffers together with its Server and Date
    headers *)
Inductive head_line : Type :=
| Status (code : nat)
| Header (keyword value : string)
| Blank.

(** one [wfile.write]: a response head, or the [json.dumps] of a
    dictionary with a single string entry *)
Inductive chunk : Type :=
| Head (lines : list head_line)
| Body (key value : string).

(** the handler, the global [scanner_process] and what happened to the
    child processes and to the client *)
Record Srv : Type := {
  scanner_process : option nat;    (* [None], or the handle of a child *)
  spawned : nat;                   (* children started so far; the next handle *)
  signalled : list nat;            (* handles that got [terminate()], newest first *)
  path : string;                   (* [self.path] *)
  headers_buffer : list head_line; (* [self._headers_buffer] *)
  writes : nat;                    (* [wfile.write] calls so far *)
  sent : list chunk;               (* what reached the client, oldest first *)
  served : list string             (* paths handed to the file handler *)
}.

(** outcome of [scanner_process.wait(timeout=5)] *)
Inductive wait_outcome : Type :=
| Exited (code : Z)
| StillRunning.

(** everything one request asks of the world *)
Record req_env : Type := {
  content_length : sres Z;     (* [int(self.headers.get('Content-Length', 0))] *)
  body_read : option string;   (* [self.rfile.read(n)] raising [OSError] *)
  polled : option Z;           (* [poll()]: [None] while the child runs *)
  popen : option string;       (* [subprocess.Popen(...)] raising [OSError] *)
  waited : wait_outcome;
  net : nat -> option string   (* the [k]-th [wfile.write] raising [OSError] *)
}.

Definition SM (A : Type) : Type := Srv -> sres A * Srv.

Definition sret {A} (a : A) : SM A := fun s => (Done a, s).

Definition sraise {A} (e : sexn) : SM A := fun s => (Failed e, s).

Definition sbind {A B} (m : SM A) (k : A -> SM B) : SM B :=
  fun s => match m s with
           | (Done a, s') => k a s'
           | (Failed e, s') => (Failed e, s')
           end.

Notation "'run!' x ':=' m 'in' k" := (sbind m (fun x => k))
  (at level 10, x name, m at level 100, k at level 200).
Notation "m '>>>' k" := (sbind m (fun _ => k))
  (at level 90, right associativity).

(** [try: body / except Exception as e: handler e] *)
Definition stry {A} (body : SM A) (handler : sexn -> SM A) : SM A :=
  fun s => match body s with
           | (Done a, s') => (Done a, s')
           | (Failed e, s') => handler e s'
           end.

Definition sget : SM Srv := fun s => (Done s, s).

(** [wfile.write(data)] *)
Definition wfile_write (env : req_env) (c : chunk) : SM unit :=
  fun s =>
    let s' := {| scanner_process := scanner_process s; spawned := spawned s;
                 signalled := signalled s; path := path s;
                 headers_buffer := headers_buffer s;
                 writes := S (writes s);
                 sent := match net env (writes s) with
                         | None => sent s ++ [c]
                         | Some _ => sent s
                         end;
                 served := served s |} in
    match net env (writes s) with
    | None => (Done tt, s')
    | Some m => (Failed (SOSError m), s')
    end.

Definition set_buffer (b : list head_line) : SM unit :=
  fun s => (Done tt,
            {| scanner_process := scanner_process s; spawned := spawned s;
               signalled := signalled s; path := path s;
               headers_buffer := b; writes := writes s; sent := sent s;
               served := served s |}).

(** [self.send_response(code)] *)
Definition send_response (code : nat) : SM unit :=
  run! s := sget in set_buffer (headers_buffer s ++ [Status code]).

(** [self.send_header(keyword, value)] *)
Definition send_header (keyword value : string) : SM unit :=
  run! s := sget in set_buffer (headers_buffer s ++ [Header keyword value]).

(** [self.end_headers()]: the buffer is written out, and emptied only
    when the write went through *)
Definition end_headers (env : req_env) : SM unit :=
  run! s := sget in
  set_buffer (headers_buffer s ++ [Blank]) >>>
  wfile_write env (Head (headers_buffer s ++ [Blank])) >>>
  set_buffer [].

Definition set_process (p : option nat) : SM unit :=
  fun s => (Done tt,
            {| scanner_process := p; spawned := spawned s;
               signalled := signalled s; path := path s;
               headers_buffer := headers_buffer s; writes := writes s;
               sent := sent s; served := served s |}).

(** [subprocess.Popen(['python3', 'sds200_scanner.py'], ...)] *)
Definition Popen (env : req_env) : SM nat :=
  match popen env with
  | Some m => sraise (SOSError m)
  | None =>
      fun s => (Done (spawned s),
                {| scanner_process := scanner_process s;
                   spawned := S (spawned s);
                   signalled := signalled s; path := path s;
                   headers_buffer := headers_buffer s; writes := writes s;
                   sent := sent s; served := served s |})
  end.

(** [scanner_process.terminate()] *)
Definition terminate (h : nat) : SM unit :=
  fun s => (Done tt,
            {| scanner_process := scanner_process s; spawned := spawned s;
               signalled := h :: signalled s; path := path s;
               headers_buffer := headers_buffer s; writes := writes s;
               sent := sent s; served := served s |}).

Definition timeout_message : string :=
  "Command '['python3', 'sds200_scanner.py']' timed out after 5 seconds".

(** [scanner_process.wait(timeout=5)] *)
Definition wait (env : req_env) : SM Z :=
  match waited env with
  | Exited code => sret code
  | StillRunning => sraise (TimeoutExpired timeout_message)
  end.

(** the four lines that send a JSON reply *)
Definition reply (env : req_env) (code : nat) (key value : string) : SM unit :=
  send_response code >>>
  send_header "Content-Type" "application/json" >>>
  end_headers env >>>
  wfile_write env (Body key value).

(** [DashboardHandler.start_scanner] *)
Definition start_scanner (env : req_env) : SM unit :=
  stry
    (run! s := sget in
     if match scanner_process s with
        | None => true
        | Some _ => match polled env with Some _ => true | None => false end
        end
     then
       run! h := Popen env in
       set_process (Some h) >>>
       reply env 200 "status" "started"
     else
       reply env 200 "status" "already running")
    (fun e => reply env 500 "error" (str_sexn e)).

(** [DashboardHandler.stop_scanner] *)
Definition stop_scanner (env : req_env) : SM unit :=
  stry
    (run! s := sget in
     (match scanner_process s with
      | Some h =>
          terminate h >>>
          wait env >>>
          set_process None
      | None => sret tt
      end) >>>
     reply env 200 "status" "stopped")
    (fun e => reply env 500 "error" (str_sexn e)).

(** [DashboardHandler.do_POST] *)
Definition do_POST (env : req_env) : SM unit :=
  run! n := (fun s => (content_length env, s)) in
  (match body_read env with
   | Some m => sraise (SOSError m)
   | None => sret tt
   end) >>>
  run! s := sget in
  if String.eqb (path s) "/api/start" then start_scanner env
  else if String.eqb (path s) "/api/stop" then stop_scanner env
  else send_response 404 >>> end_headers env.

Definition set_path (p : string) : SM unit :=
  fun s => (Done tt,
            {| scanner_process := scanner_process s; spawned := spawned s;
               signalled := signalled s; path := p;
               headers_buffer := headers_buffer s; writes := writes s;
               sent := sent s; served := served s |}).

(** [SimpleHTTPRequestHandler.do_GET(self)]: the file handler of the
    library takes over with the current path *)
Definition serve_file : SM unit :=
  fun s => (Done tt,
            {| scanner_process := scanner_process s; spawned := spawned s;
               signalled := signalled s; path := path s;
               headers_buffer := headers_buffer s; writes := writes s;
               sent := sent s; served := served s ++ [path s] |}).

(** [DashboardHandler.do_GET] *)
Definition do_GET : SM unit :=
  run! s := sget in
  (if String.eqb (path s) "/" then set_path "/index.html" else sret tt) >>>
  serve_file.

(** the server at start-up, handling a request for [p] *)
Definition fresh (p : string) : Srv :=
  {| scanner_process := None; spawned := 0; signalled := []; path := p;
     headers_buffer := []; writes := 0; sent := []; served := [] |}.

(** the same server handling its next request, for [p] *)
Definition next_request (p : string) (s : Srv) : Srv :=
  {| scanner_process := scanner_process s; spawned := spawned s;
     signalled := signalled s; path := p;
     headers_buffer := []; writes := writes s; sent := sent s;
     served := served s |}.

Definition safter {A} (m : SM A) (s : Srv) : Srv := snd (m s).
Definition soutcome {A} (m : SM A) (s : Srv) : sres A := fst (m s).

(** the part of the state that concerns the child processes *)
Definition processes (s : Srv) : option nat * nat * list nat :=
  (scanner_process s, spawned s, signalled s).

(** a client that takes every write *)
Definition reachable (env : req_env) : Prop := forall k, net env k = None.

(** the head and the body of a JSON reply *)
Definition json_reply (code : nat) (key value : string) : list chunk :=
  [Head [Status code; Header "Content-Type" "application/json"; Blank];
   Body key value].

(** a request whose length header and body are read without error *)
Definition well_formed (env : req_env) : Prop :=
  (exists n, content_length env = Done n) /\ body_read env = None.

(** an environment in which nothing fails and the child, if polled, is
    still running *)
Definition quiet : req_env :=
  {| content_length := Done 0%Z; body_read := None; polled := None;
     popen := None; waited := Exited 0%Z; net := fun _ => None |}.

End Server.

(** * Properties *)

(** ** Strings *)

Lemma split_comma_length (s : string) : (1 <= length (PyStr.split_comma s))%nat.
Proof.
  induction s as [|c s IH]; simpl; [lia|].
  destruct (Ascii.eqb c PyStr.comma); simpl; [lia|].
  destruct (PyStr.split_comma s); simpl in *; lia.
Qed.

Lemma has_comma_cons (c : ascii) (s : string) :
  PyStr.has_comma (String c s) = Ascii.eqb PyStr.comma c || PyStr.has_comma s.
Proof. reflexivity. Qed.

Lemma split_comma_plain (s : string) :
  PyStr.has_comma s = false -> PyStr.split_comma s = [s].
Proof.
  induction s as [|c s IH]; [reflexivity|].
  rewrite has_comma_cons. intros H.
  apply orb_false_iff in H as [Hc Hs].
  simpl. rewrite Ascii.eqb_sym, Hc, (IH Hs). reflexivity.
Qed.

Lemma split_comma_app (p rest : string) :
  PyStr.has_comma p = false ->
  PyStr.split_comma (p +:+ String PyStr.comma rest) = p :: PyStr.split_comma rest.
Proof.
  induction p as [|c p IH]; intros H.
  - reflexivity.
  - rewrite has_comma_cons in H. apply orb_false_iff in H as [Hc Hp].
    change (String c p +:+ String PyStr.comma rest)
      with (String c (p +:+ String PyStr.comma rest)).
    cbn [PyStr.split_comma]. rewrite Ascii.eqb_sym, Hc, (IH Hp). reflexivity.
Qed.

(** splitting undoes joining when no part holds a comma *)
Lemma split_join (parts : list string) :
  parts <> [] ->
  Forall (fun p => PyStr.has_comma p = false) parts ->
  PyStr.split_comma (PyStr.join_comma parts) = parts.
Proof.
  induction parts as [|p ps IH]; [congruence|].
  intros _ Hall. inversion Hall as [|? ? Hp Hps]; subst.
  destruct ps as [|q ps].
  - simpl. apply split_comma_plain, Hp.
  - change (PyStr.join_comma (p :: q :: ps))
      with (p +:+ String PyStr.comma (PyStr.join_comma (q :: ps))).
    rewrite split_comma_app by exact Hp.
    rewrite IH; [reflexivity | congruence | exact Hps].
Qed.

(** ** Parsing *)

Lemma index_or_None_lookup (parts : list string) (i : nat) :
  index_or_None parts i = Ret (parts !! i).
Proof.
  unfold index_or_None, index.
  destruct (i <? length parts)%nat eqn:Hi.
  - apply Nat.ltb_lt in Hi.
    destruct (lookup_lt_is_Some_2 parts i Hi) as [p Hp].
    rewrite Hp. reflexivity.
  - apply Nat.ltb_ge in Hi. rewrite (lookup_ge_None_2 parts i Hi). reflexivity.
Qed.

(** the body of [parse_response] cannot raise: its handler is dead code *)
Lemma parse_body_total (response command_type : string) :
  exists v, parse_body response command_type = Ret v.
Proof.
  unfold parse_body.
  remember (PyStr.split_comma response) as parts eqn:E. clear E.
  destruct parts as [|h [|p tl]];
    repeat match goal with
           | |- context [if ?b && _ then _ else _] => destruct b; simpl
           end;
    rewrite ?index_or_None_lookup; simpl; eauto.
Qed.

Lemma parse_response_total (response command_type : string) :
  exists v, parse_response response command_type = Ret v.
Proof.
  unfold parse_response. destruct (negb (PyStr.truthy response)); [eauto|].
  destruct (parse_body_total response command_type) as [v ->]. simpl. eauto.
Qed.

Lemma parse_response_STS (response : string) :
  parse_response response "STS" =
    Ret (match PyStr.split_comma response with
         | (_ :: _ :: _) as parts =>
             PyDict {| sts_frequency := parts !! 1%nat;
                       sts_signal_strength := parts !! 2%nat;
                       sts_mode := parts !! 3%nat;
                       sts_volume := parts !! 4%nat;
                       sts_squelch := parts !! 5%nat |}
         | _ => if PyStr.truthy response then PyStr response else PyNone
         end).
Proof.
  unfold parse_response, parse_body.
  destruct response as [|c r]; [reflexivity|].
  remember (PyStr.split_comma (String c r)) as parts eqn:E. clear E.
  cbn [PyStr.truthy negb String.eqb Ascii.eqb Bool.eqb andb].
  destruct parts as [|h [|p tl]]; try reflexivity.
  rewrite !index_or_None_lookup. reflexivity.
Qed.

(** C4 as amended: for an MDL or a VER reply [parse_response] never
    raises; it returns field 1 when the reply has at least two fields,
    the raw reply itself when it has a single field, and [None] only for
    the empty reply. The reply [MDL,HP1,] gives the model [HP1]. *)
Theorem parse_response_MDL_VER (response : string) :
  let value :=
    match PyStr.split_comma response with
    | _ :: payload :: _ => PyStr payload
    | _ => if PyStr.truthy response then PyStr response else PyNone
    end in
  parse_response response "MDL" = Ret value /\
  parse_response response "VER" = Ret value /\
  parse_response "MDL,HP1," "MDL" = Ret (PyStr "HP1").
Proof.
  cbv zeta. unfold parse_response, parse_body.
  destruct response as [|c r]; [repeat split; reflexivity|].
  remember (PyStr.split_comma (String c r)) as parts eqn:E. clear E.
  cbn [PyStr.truthy negb String.eqb Ascii.eqb Bool.eqb andb].
  destruct parts as [|h [|p tl]]; repeat split; reflexivity.
Qed.

(** C4 as stated fails: a reply with a single field does not parse to
    [None], the raw reply comes back. *)
Lemma short_MDL_reply_is_passed_through :
  ~ (forall response command_type : string,
       command_type = "MDL" \/ command_type = "VER" ->
       (length (PyStr.split_comma response) < 2)%nat ->
       parse_response response command_type = Ret PyNone).
Proof.
  intros H. specialize (H "MDL" "MDL" (or_introl eq_refl)).
  cbv in H. specialize (H (le_n 2)). discriminate H.
Qed.

(** ** Running the monad *)

Lemma bind_run {A B} (m : M A) (k : A -> M B) (w w' : World) (a : A) :
  m w = (Ret a, w') -> bind m k w = k a w'.
Proof. unfold bind. intros ->. reflexivity. Qed.

Lemma try_run {A} (m : M A) (h : exn -> option (M A)) (w w' : World) (a : A) :
  m w = (Ret a, w') -> try_with m h w = (Ret a, w').
Proof. unfold try_with. intros ->. reflexivity. Qed.

Lemma put_put (s1 s2 : option sock) (f1 f2 : ScannerData -> ScannerData)
    (e1 e2 : list wire_event) (w : World) :
  put s2 f2 e2 (put s1 f1 e1 w) = put s2 (fun d => f2 (f1 d)) (e2 ++ e1) w.
Proof. unfold put, data. simpl. rewrite app_assoc. reflexivity. Qed.

Lemma data_put (sk : option sock) (f : ScannerData -> ScannerData)
    (evs : list wire_event) (w : World) :
  data (put sk f evs w) = f (data w).
Proof. reflexivity. Qed.


Lemma mutate_run (f : ScannerData -> ScannerData) (w : World) :
  mutate f w = (Ret tt, put (socket (self w)) f [] w).
Proof. reflexivity. Qed.

(** ** [send_command] *)

Lemma send_command_run (x : exchange) (command : string) (w : World) :
  send_command x command w =
    (Ret (reply_of x (socket (self w))),
     put (socket (self w)) (fun d => d) (attempt command (socket (self w))) w).
Proof.
  destruct w as [[i p sk d] wr df], x as [snd rcv].
  unfold send_command. fold (framed command).
  destruct sk as [[]|]; destruct snd as [[]|]; destruct rcv as [[]|[]];
    reflexivity.
Qed.

(** C9: whatever the command, the state of the connection and the
    behaviour of the network, [send_command] returns a response string
    or [None] and raises nothing; with no socket ever opened it
    returns [None]. *)
Theorem send_command_total (x : exchange) (command : string) (w : World) :
  (exists r : option string, outcome (send_command x command) w = Ret r) /\
  outcome (send_command x command) (no_socket w) = Ret None.
Proof.
  unfold outcome. rewrite !send_command_run. simpl. eauto.
Qed.

(** ** The three queries *)

Lemma get_model_run (x : exchange) (w : World) :
  get_model x w =
    (Ret tt, put (socket (self w)) (fold_model (reply_of x (socket (self w))))
                 (attempt "MDL" (socket (self w))) w).
Proof.
  unfold get_model. erewrite bind_run by apply send_command_run.
  unfold fold_model.
  destruct (reply_of x (socket (self w))) as [r|]; [|reflexivity].
  destruct (PyStr.truthy r); [|reflexivity].
  destruct (parse_response_total r "MDL") as [v Hv]. rewrite Hv.
  reflexivity.
Qed.

Lemma get_firmware_run (x : exchange) (w : World) :
  get_firmware x w =
    (Ret tt, put (socket (self w)) (fold_firmware (reply_of x (socket (self w))))
                 (attempt "VER" (socket (self w))) w).
Proof.
  unfold get_firmware. erewrite bind_run by apply send_command_run.
  unfold fold_firmware.
  destruct (reply_of x (socket (self w))) as [r|]; [|reflexivity].
  destruct (PyStr.truthy r); [|reflexivity].
  destruct (parse_response_total r "VER") as [v Hv]. rewrite Hv.
  reflexivity.
Qed.

Lemma get_status_run (x : exchange) (w : World) :
  get_status x w =
    (Ret tt, put (socket (self w)) (fold_status (reply_of x (socket (self w))))
                 (attempt "STS" (socket (self w))) w).
Proof.
  unfold get_status. erewrite bind_run by apply send_command_run.
  unfold fold_status.
  destruct (reply_of x (socket (self w))) as [r|]; [|reflexivity].
  destruct (PyStr.truthy r); [|reflexivity].
  destruct (parse_response_total r "STS") as [v Hv]. rewrite Hv.
  destruct v; reflexivity.
Qed.

(** C10: when [send_command] has no response, [get_model],
    [get_firmware] and [get_status] leave the whole snapshot as it was,
    [error] and [all_responses] included. *)
Theorem no_response_keeps_snapshot (x : exchange) (w : World) :
  (outcome (send_command x "MDL") w = Ret None ->
   data (after (get_model x) w) = data w) /\
  (outcome (send_command x "VER") w = Ret None ->
   data (after (get_firmware x) w) = data w) /\
  (outcome (send_command x "STS") w = Ret None ->
   data (after (get_status x) w) = data w).
Proof.
  unfold outcome, after.
  rewrite !send_command_run, get_model_run, get_firmware_run, get_status_run.
  simpl. repeat split; intros [= ->]; reflexivity.
Qed.

Lemma no_response_keeps_snapshot_witness :
  (outcome (send_command x_timeout "MDL") seasoned = Ret None /\
   data (after (get_model x_timeout) seasoned) = data seasoned) /\
  (outcome (send_command x_broken "VER") seasoned = Ret None /\
   data (after (get_firmware x_broken) seasoned) = data seasoned) /\
  (outcome (send_command x_timeout "STS") seasoned = Ret None /\
   data (after (get_status x_timeout) seasoned) = data seasoned).
Proof.
  destruct (no_response_keeps_snapshot x_timeout seasoned) as (Hm & _ & Hs).
  destruct (no_response_keeps_snapshot x_broken seasoned) as (_ & Hv & _).
  repeat split;
    solve [ vm_compute; reflexivity
          | apply Hm; vm_compute; reflexivity
          | apply Hv; vm_compute; reflexivity
          | apply Hs; vm_compute; reflexivity ].
Defined.

(** ** Truncated STS replies *)

Lemma sts_field_frame (i : nat) (r : string) (d : ScannerData) :
  sts_field i (record_response "STS" r (set_status (Some r) d)) = sts_field i d.
Proof. do 6 (destruct i as [|i]; [reflexivity|]). reflexivity. Qed.

(** C1 as amended: a reply to STS never makes [get_status] raise. When
    the reply has at least two comma-separated fields, each of the
    positions 1 to 5 overwrites its snapshot field with the field of the
    reply, and with [None] when the reply is too short to have it. When
    the reply has a single field, the five snapshot fields keep the
    values they had. *)
Theorem get_status_truncated (w : World) (text : string) (i : nat) :
  socket (self w) = Some SockConnected ->
  (1 <= i <= 5)%nat ->
  let parts := PyStr.split_comma (PyStr.strip text) in
  let w' := after (get_status (x_reply text)) w in
  outcome (get_status (x_reply text)) w = Ret tt /\
  sts_field i (data w') =
    (if (2 <=? length parts)%nat then parts !! i else sts_field i (data w)) /\
  ((2 <= length parts <= i)%nat -> sts_field i (data w') = None).
Proof.
  intros Hs Hi parts w'.
  assert (Hmain : outcome (get_status (x_reply text)) w = Ret tt /\
            sts_field i (data w') =
              if (2 <=? length parts)%nat then parts !! i
              else sts_field i (data w)); cycle 1.
  { destruct Hmain as [Hr Hf]. split; [exact Hr|]. split; [exact Hf|].
    intros [H2 Hlen]. rewrite Hf.
    destruct (Nat.leb_spec 2 (length parts)) as [_|Hlt]; [|lia].
    apply lookup_ge_None_2, Hlen. }
  subst w'. unfold outcome, after.
  rewrite get_status_run, Hs. split; [reflexivity|].
  cbn [snd reply_of x_reply x_send x_recv].
  unfold put, data at 1. cbn [self scanner_data]. fold (data w).
  unfold fold_status. fold parts.
  rewrite parse_response_STS.
  destruct (PyStr.strip text) as [|c r] eqn:E; [reflexivity|].
  cbn [PyStr.truthy]. subst parts.
  remember (PyStr.split_comma (String c r)) as parts eqn:Ep.
  pose proof (split_comma_length (String c r)) as Hlen. rewrite <- Ep in Hlen.
  destruct parts as [|h [|p tl]].
  - simpl in Hlen. lia.
  - rewrite sts_field_frame. reflexivity.
  - rewrite sts_field_frame. destruct Hi as [Hi1 Hi5].
    do 6 (destruct i as [|i]; [first [lia | reflexivity]|]). lia.
Qed.

Lemma get_status_truncated_witness :
  socket (self online) = Some SockConnected /\
  (1 <= 4 <= 5)%nat /\
  outcome (get_status (x_reply (line "STS,154.6700,60"))) online = Ret tt /\
  volume (data (after (get_status (x_reply (line "STS,154.6700,60"))) online))
  = None.
Proof.
  assert (Hs : socket (self online) = Some SockConnected) by reflexivity.
  assert (Hi : (1 <= 4 <= 5)%nat) by lia.
  destruct (get_status_truncated online (line "STS,154.6700,60") 4 Hs Hi)
    as (Hr & Hf & _).
  split; [exact Hs|]. split; [exact Hi|]. split; [exact Hr | exact Hf].
Defined.

(** C1 as stated fails: a reply made of one field leaves the old
    frequency in the snapshot instead of overwriting it with [None]. *)
Lemma single_field_STS_keeps_stale_fields :
  ~ (forall (w : World) (text : string) (i : nat),
       socket (self w) = Some SockConnected ->
       (length (PyStr.split_comma (PyStr.strip text)) < 6)%nat ->
       (1 <= i <= 5)%nat ->
       (length (PyStr.split_comma (PyStr.strip text)) <= i)%nat ->
       outcome (get_status (x_reply text)) w = Ret tt /\
       sts_field i (data (after (get_status (x_reply text)) w)) = None).
Proof.
  intros H.
  destruct (H seasoned (line "STS") 1%nat) as [_ Hf].
  - reflexivity.
  - vm_compute. lia.
  - lia.
  - vm_compute. lia.
  - vm_compute in Hf. discriminate Hf.
Qed.

(** ** [connect] and [disconnect] *)

Lemma connect_run (o : connect_outcome) (w : World) :
  connect o w =
    match o with
    | ConnectOk =>
        (Ret true,
         put (Some SockConnected)
             (fun d => set_error None (set_connected true d))
             [WConnect (ip (self w)) (port (self w))] w)
    | CreateFails m =>
        (Ret false,
         put (socket (self w))
             (fun d => set_error (Some m) (set_connected false d)) [] w)
    | ConnectFails e =>
        (Ret false,
         put (Some SockFresh)
             (fun d => set_error (Some (str_exn (exn_of e)))
                         (set_connected false d))
             [WConnect (ip (self w)) (port (self w))] w)
    end.
Proof.
  destruct w as [[i p sk d] wr df].
  destruct o as [|m|[|m]]; reflexivity.
Qed.

(** C6 as amended: [connect] never raises. On success it returns [True],
    sets [connected] and clears [error]. On failure it returns the bare
    flag [False], which carries no message; the message of the underlying
    error is recorded in [error], and [connected] is [False]. *)
Theorem connect_result (o : connect_outcome) (w : World) :
  let w' := after (connect o) w in
  match o with
  | ConnectOk =>
      outcome (connect o) w = Ret true /\
      connected (data w') = true /\ error (data w') = None
  | CreateFails m =>
      outcome (connect o) w = Ret false /\
      connected (data w') = false /\ error (data w') = Some m
  | ConnectFails e =>
      outcome (connect o) w = Ret false /\
      connected (data w') = false /\
      error (data w') = Some (str_exn (exn_of e))
  end.
Proof.
  unfold outcome, after. rewrite connect_run.
  destruct o; repeat split; reflexivity.
Qed.

(** C6 as stated fails: what [connect] returns on failure does not
    carry the error message, two different failures return the same
    value. *)
Lemma connect_failure_returns_bare_flag :
  ~ (exists message_of : res bool -> string,
       forall (o : connect_outcome) (w : World) (m : string),
         o = ConnectFails (ErrOS m) ->
         message_of (outcome (connect o) w) = m).
Proof.
  intros [f H].
  pose proof (H _ (boot "192.168.2.251" 10001%Z)
                "[Errno 111] Connection refused" eq_refl) as H1.
  pose proof (H _ (boot "192.168.2.251" 10001%Z)
                "[Errno 113] No route to host" eq_refl) as H2.
  unfold outcome in H1, H2. rewrite connect_run in H1, H2.
  cbn [fst] in H1, H2. rewrite H1 in H2. discriminate H2.
Qed.

Lemma disconnect_run (o : os_outcome) (w : World) :
  disconnect o w =
    (Ret tt,
     match socket (self w) with
     | None => w
     | Some SockClosed => put (Some SockClosed) (set_connected false) [] w
     | Some _ =>
         match o with
         | None => put (Some SockClosed) (set_connected false) [WClose] w
         | Some _ => put (Some SockClosed) (fun d => d) [WClose] w
         end
     end).
Proof.
  destruct w as [[i p sk d] wr df].
  destruct sk as [[]|]; destruct o; reflexivity.
Qed.

(** [disconnect] raises nothing, whatever [close] does *)
Lemma disconnect_total (o : os_outcome) (w : World) :
  outcome (disconnect o) w = Ret tt.
Proof. unfold outcome. rewrite disconnect_run. reflexivity. Qed.

(** when [close] succeeds the connection is inactive afterwards, and a
    second call changes nothing more *)
Lemma disconnect_twice (o : os_outcome) (w : World) (s : sock) :
  socket (self w) = Some s ->
  let w1 := after (disconnect None) w in
  let w2 := after (disconnect o) w1 in
  connected (data w1) = false /\ connected (data w2) = false /\
  self w2 = self w1 /\ wire w2 = wire w1.
Proof.
  intros Hs. unfold after. rewrite !disconnect_run.
  destruct w as [[i p sk d] wr df]. simpl in Hs. subst sk.
  destruct s; repeat split; reflexivity.
Qed.

(** C8 at its failing input: the scanner is connected and the first
    [close()] raises. [disconnect] swallows the error, and the snapshot
    still says [connected]; only the second call resets the flag. *)
Theorem disconnect_close_error_stays_connected :
  let o := Some "[Errno 5] Input/output error" in
  let w1 := after (disconnect o) online in
  let w2 := after (disconnect o) w1 in
  connected (data online) = true /\
  outcome (disconnect o) online = Ret tt /\
  connected (data w1) = true /\
  socket (self w1) = Some SockClosed /\
  outcome (disconnect o) w1 = Ret tt /\
  connected (data w2) = false.
Proof. vm_compute. repeat split; reflexivity. Qed.

(** ** One pull *)

Lemma queries_run (xm xv xs : exchange) (w : World) :
  (get_model xm >> get_firmware xv >> get_status xs >> ret true) w =
    (Ret true,
     put (socket (self w)) (folded xm xv xs (socket (self w)))
         (three_queries (socket (self w))) w).
Proof.
  erewrite bind_run by apply get_model_run.
  erewrite bind_run by apply get_firmware_run.
  erewrite bind_run by apply get_status_run.
  cbn [put self socket]. unfold ret. rewrite !put_put.
  unfold three_queries. rewrite <- app_assoc. reflexivity.
Qed.

Lemma folded_frame (xm xv xs : exchange) (sk : option sock) (d : ScannerData) :
  timestamp (folded xm xv xs sk d) = timestamp d /\
  connected (folded xm xv xs sk d) = connected d /\
  error (folded xm xv xs sk d) = error d.
Proof.
  unfold folded, fold_status, fold_firmware, fold_model.
  repeat match goal with
         | |- context [match ?t with _ => _ end] => destruct t
         end; repeat split; reflexivity.
Qed.

(** [pull_all_data] on a scanner whose snapshot says [connected] *)
Lemma pull_connected (now : instant) (c : connect_outcome)
    (xm xv xs : exchange) (w : World) :
  connected (data w) = true ->
  pull_all_data now c xm xv xs w =
    (Ret true,
     put (socket (self w))
         (fun d => folded xm xv xs (socket (self w))
                     (set_timestamp (Some now) d))
         (three_queries (socket (self w))) w).
Proof.
  intros Hc. unfold pull_all_data.
  erewrite bind_run by apply mutate_run.
  erewrite bind_run by reflexivity.
  cbn [put self scanner_data connected set_timestamp socket].
  fold (data w). rewrite Hc. cbn [negb].
  erewrite bind_run by reflexivity. cbn [negb].
  erewrite try_run by apply queries_run.
  cbn [put self socket]. rewrite put_put, app_nil_r. reflexivity.
Qed.

(** [pull_all_data] on a scanner whose snapshot says not [connected] *)
Lemma pull_disconnected (now : instant) (c : connect_outcome)
    (xm xv xs : exchange) (w : World) :
  connected (data w) = false ->
  pull_all_data now c xm xv xs w =
    match c with
    | ConnectOk =>
        (Ret true,
         put (Some SockConnected)
             (fun d => folded xm xv xs (Some SockConnected)
                         (set_error None (set_connected true
                            (set_timestamp (Some now) d))))
             (three_queries (Some SockConnected)
                ++ [WConnect (ip (self w)) (port (self w))]) w)
    | CreateFails m =>
        (Ret false,
         put (socket (self w))
             (fun d => set_error (Some m) (set_connected false
                         (set_timestamp (Some now) d))) [] w)
    | ConnectFails e =>
        (Ret false,
         put (Some SockFresh)
             (fun d => set_error (Some (str_exn (exn_of e)))
                         (set_connected false (set_timestamp (Some now) d)))
             [WConnect (ip (self w)) (port (self w))] w)
    end.
Proof.
  intros Hc. unfold pull_all_data.
  erewrite bind_run by apply mutate_run.
  erewrite bind_run by reflexivity.
  cbn [put self scanner_data connected set_timestamp socket].
  fold (data w). rewrite Hc. cbn [negb].
  destruct c as [|m|e].
  - erewrite bind_run by apply (connect_run ConnectOk). cbn [negb].
    erewrite try_run by apply queries_run.
    cbn [put self socket ip port]. rewrite !put_put. reflexivity.
  - erewrite bind_run by apply (connect_run (CreateFails m)).
    cbn [negb put self socket].
    unfold ret. rewrite put_put. reflexivity.
  - erewrite bind_run by apply (connect_run (ConnectFails e)).
    cbn [negb put self socket ip port].
    unfold ret. rewrite put_put. reflexivity.
Qed.

Lemma pull_returns (now : instant) (c : connect_outcome)
    (xm xv xs : exchange) (w : World) :
  exists b : bool,
    pull_all_data now c xm xv xs w =
      (Ret b, after (pull_all_data now c xm xv xs) w).
Proof.
  unfold after. destruct (connected (data w)) eqn:Hc.
  - rewrite (pull_connected _ _ _ _ _ _ Hc). eauto.
  - rewrite (pull_disconnected _ _ _ _ _ _ Hc). destruct c; eauto.
Qed.

(** every pull stamps the snapshot, connected or not, and leaves the
    data file alone *)
Lemma pull_stamps (now : instant) (c : connect_outcome)
    (xm xv xs : exchange) (w : World) :
  timestamp (data (after (pull_all_data now c xm xv xs) w)) = Some now /\
  data_file (after (pull_all_data now c xm xv xs) w) = data_file w.
Proof.
  unfold after. destruct (connected (data w)) eqn:Hc.
  - rewrite (pull_connected _ _ _ _ _ _ Hc). split; [|reflexivity].
    cbn [snd]. unfold put, data at 1. cbn [self scanner_data].
    destruct (folded_frame xm xv xs (socket (self w))
                (set_timestamp (Some now) (data w))) as (-> & _).
    reflexivity.
  - rewrite (pull_disconnected _ _ _ _ _ _ Hc).
    destruct c; (split; [|reflexivity]); try reflexivity.
    cbn [snd]. unfold put, data at 1. cbn [self scanner_data].
    match goal with
    | |- timestamp (folded ?a ?b ?c ?s ?d) = _ =>
        destruct (folded_frame a b c s d) as (-> & _)
    end.
    reflexivity.
Qed.

(** ** The poll loop *)

Lemma save_to_file_run (o : save_outcome) (w : World) :
  save_to_file o w = (Ret tt, saved o w).
Proof. destruct o; reflexivity. Qed.

Lemma disconnect_returns (o : os_outcome) (w : World) :
  disconnect o w = (Ret tt, after (disconnect o) w).
Proof. unfold after. rewrite disconnect_run. reflexivity. Qed.

Lemma scan_once_run (interval : duration) (env : cycle_env) (w : World) :
  scan_once interval env w = (verdict interval env, settled interval env w).
Proof.
  unfold scan_once, verdict, settled, try_with.
  erewrite bind_run by reflexivity.
  assert (Hprep : (if negb (connected (scanner_data (self w)))
                   then connect (env_connect env) >> ret tt
                   else ret tt) w = (Ret tt, prepared env w)).
  { unfold prepared, data. destruct (connected (scanner_data (self w))).
    - reflexivity.
    - cbn [negb]. unfold after. rewrite (bind_run _ _ w
        (snd (connect (env_connect env) w))
        (match env_connect env with ConnectOk => true | _ => false end)).
      + reflexivity.
      + rewrite connect_run. destruct (env_connect env); reflexivity. }
  erewrite bind_run by exact Hprep.
  destruct (pull_returns (env_now env) (env_reconnect env) (env_mdl env)
              (env_ver env) (env_sts env) (prepared env w)) as [b Hb].
  erewrite bind_run by exact Hb.
  erewrite bind_run by apply save_to_file_run.
  fold (cycled env w).
  destruct interval as [n|]; cbn [sleeps sleep].
  - destruct (Z.ltb_spec n 0) as [Hn|Hn];
      destruct (Z.leb_spec 0 n) as [Hn'|Hn']; try lia.
    + unfold bind at 1, raise. cbn [except_Exception is_Exception].
      erewrite bind_run by apply disconnect_returns.
      destruct (env_cooldown env); reflexivity.
    + destruct (env_sleep env); reflexivity.
  - unfold bind at 1, raise. cbn [except_Exception is_Exception].
    erewrite bind_run by apply disconnect_returns.
    destruct (env_cooldown env); reflexivity.
Qed.

(** with an interval that [time.sleep] accepts, an iteration of the loop
    never lets an exception out and never runs the handler *)
Lemma scan_once_sleeping (interval : duration) (env : cycle_env) (w : World) :
  sleeps interval = true ->
  scan_once interval env w =
    (Ret (match env_sleep env with Slept => Continue | Interrupted => Break end),
     cycled env w).
Proof.
  intros H. rewrite scan_once_run. unfold verdict, settled. rewrite H.
  destruct (env_sleep env); reflexivity.
Qed.

(** ** Failures in the middle of a cycle *)

(** a pull that starts connected puts the three commands on the wire,
    and nothing else *)
Lemma pull_connected_wire (w : World) (now : instant)
    (c : connect_outcome) (xm xv xs : exchange) (s : sock) :
  connected (data w) = true ->
  socket (self w) = Some s ->
  wire (after (pull_all_data now c xm xv xs) w) =
    WSend (framed "STS") :: WSend (framed "VER") :: WSend (framed "MDL")
      :: wire w.
Proof.
  intros Hc Hs. unfold after.
  rewrite (pull_connected _ _ _ _ _ _ Hc), Hs. reflexivity.
Qed.

(** C3 as amended: in a cycle that starts connected and in which a
    command times out (whichever of the three, and whatever the other
    exchanges do), [connected] stays true, MDL, VER and STS are all sent
    in that order, and the pull succeeds. The timeout is not written to
    the snapshot: [error] keeps the value it had. *)
Theorem timeout_keeps_cycle_going (w : World) (now : instant)
    (c : connect_outcome) (xm xv xs : exchange) (s : sock) :
  connected (data w) = true ->
  socket (self w) = Some s ->
  times_out xm || times_out xv || times_out xs = true ->
  let w' := after (pull_all_data now c xm xv xs) w in
  outcome (pull_all_data now c xm xv xs) w = Ret true /\
  connected (data w') = true /\
  error (data w') = error (data w) /\
  wire w' =
    WSend (framed "STS") :: WSend (framed "VER") :: WSend (framed "MDL")
      :: wire w.
Proof.
  intros Hc Hs _ w'. subst w'.
  split; [|split; [|split]].
  - unfold outcome. rewrite (pull_connected _ _ _ _ _ _ Hc). reflexivity.
  - unfold after. rewrite (pull_connected _ _ _ _ _ _ Hc). cbn [snd].
    rewrite data_put.
    destruct (folded_frame xm xv xs (socket (self w))
                (set_timestamp (Some now) (data w))) as (_ & -> & _).
    exact Hc.
  - unfold after. rewrite (pull_connected _ _ _ _ _ _ Hc). cbn [snd].
    rewrite data_put.
    destruct (folded_frame xm xv xs (socket (self w))
                (set_timestamp (Some now) (data w))) as (_ & _ & ->).
    reflexivity.
  - apply (pull_connected_wire _ _ _ _ _ _ s Hc Hs).
Qed.

Lemma timeout_keeps_cycle_going_witness :
  connected (data online) = true /\
  socket (self online) = Some SockConnected /\
  times_out x_timeout || times_out x_timeout
    || times_out (x_reply (line "STS,154.6700,60,NFM,8,2")) = true /\
  let w' := after (pull_all_data 7%Z ConnectOk x_timeout x_timeout
                     (x_reply (line "STS,154.6700,60,NFM,8,2"))) online in
  connected (data w') = true /\
  error (data w') = None /\
  frequency (data w') = Some "154.6700" /\
  wire w' =
    WSend (framed "STS") :: WSend (framed "VER") :: WSend (framed "MDL")
      :: wire online.
Proof.
  assert (Hc : connected (data online) = true) by reflexivity.
  assert (Hs : socket (self online) = Some SockConnected) by reflexivity.
  assert (Ht : times_out x_timeout || times_out x_timeout
                 || times_out (x_reply (line "STS,154.6700,60,NFM,8,2")) = true)
    by reflexivity.
  destruct (timeout_keeps_cycle_going online 7%Z ConnectOk x_timeout x_timeout
              (x_reply (line "STS,154.6700,60,NFM,8,2")) SockConnected Hc Hs Ht)
    as (_ & Hc' & He & Hw).
  split; [exact Hc|]. split; [exact Hs|]. split; [exact Ht|].
  split; [exact Hc'|]. split; [exact He|]. split; [|exact Hw].
  vm_compute. reflexivity.
Defined.

(** C3 as stated fails: after a timeout of the MDL query the [error]
    field holds no error string. *)
Lemma timeout_is_not_recorded_in_error :
  ~ (forall (w : World) (now : instant) (c : connect_outcome)
            (xm xv xs : exchange),
       connected (data w) = true ->
       socket (self w) = Some SockConnected ->
       times_out xm = true ->
       exists msg : string,
         error (data (after (pull_all_data now c xm xv xs) w)) = Some msg).
Proof.
  intros H.
  destruct (H online 7%Z ConnectOk x_timeout
              (x_reply (line "VER,1.02.00,"))
              (x_reply (line "STS,154.6700,60,NFM,8,2")))
    as [msg Hmsg]; try reflexivity.
  vm_compute in Hmsg. discriminate Hmsg.
Qed.

Lemma io_failure_no_reply (x : exchange) (sk : option sock) :
  io_failure x = true -> reply_of x sk = None.
Proof.
  destruct x as [[[]|] [[]|[]]], sk as [[]|]; cbv; intros H;
    first [reflexivity | discriminate H].
Qed.

(** what the code does on a send or receive failure that is not a
    timeout: [send_command] returns [None] and changes nothing in the
    scanner object, so that the iteration of the loop that follows finds
    [connected] still true, calls no [connect], and sends MDL, VER and
    STS on the same socket *)
Lemma io_failure_keeps_connection (w : World) (x : exchange)
    (command : string) (interval : duration) (env : cycle_env) (s : sock) :
  sleeps interval = true ->
  io_failure x = true ->
  connected (data w) = true ->
  socket (self w) = Some s ->
  let w1 := after (send_command x command) w in
  outcome (send_command x command) w = Ret None /\
  self w1 = self w /\
  wire (after (scan_once interval env) w1) =
    WSend (framed "STS") :: WSend (framed "VER") :: WSend (framed "MDL")
      :: wire w1.
Proof.
  intros Hi Hx Hc Hs. unfold outcome, after.
  rewrite send_command_run, (io_failure_no_reply _ _ Hx). cbn [fst snd].
  split; [reflexivity|].
  assert (Hself : self (put (socket (self w)) (fun d => d)
                          (attempt command (socket (self w))) w) = self w).
  { destruct w as [[i p sk d] wr df]. reflexivity. }
  split; [exact Hself|].
  rewrite (scan_once_sleeping _ _ _ Hi). cbn [snd]. unfold cycled, prepared.
  set (w1 := put _ _ _ w) in *.
  assert (Hc1 : connected (data w1) = true).
  { unfold data. rewrite Hself. exact Hc. }
  rewrite Hc1.
  assert (Hs1 : socket (self w1) = Some s) by (rewrite Hself; exact Hs).
  pose proof (pull_connected_wire w1 (env_now env) (env_reconnect env)
                (env_mdl env) (env_ver env) (env_sts env) s Hc1 Hs1) as Hw.
  destruct (env_save env); exact Hw.
Qed.

(** C2 at its failing input: the link of a connected scanner breaks in
    the middle of a cycle. [send_command] returns [None]; the snapshot
    still says [connected] and the socket handle is still in place. The
    three iterations of the loop that follow never call [connect]: the
    single connect on the wire is the one that opened the link. They
    send their commands on the dead socket and publish the values of
    the last good cycle, freshly stamped, with [connected] true and no
    [error]. *)
Theorem broken_pipe_is_never_recovered :
  let w1 := after (send_command x_broken "MDL") seasoned in
  let w4 := after (continuous_scan (Seconds 1)
                     [severed 101%Z; severed 102%Z; severed 103%Z]) w1 in
  io_failure x_broken = true /\
  outcome (send_command x_broken "MDL") seasoned = Ret None /\
  connected (data w1) = true /\
  socket (self w1) = Some SockConnected /\
  connects (wire w1) = 1%nat /\
  connects (wire w4) = 1%nat /\
  length (wire w4) = (length (wire w1) + 9)%nat /\
  socket (self w4) = Some SockConnected /\
  connected (data w4) = true /\
  error (data w4) = None /\
  frequency (data w4) = Some "154.6700" /\
  published_stamps w4 = [Some 101%Z; Some 102%Z; Some 103%Z].
Proof. vm_compute. repeat split; reflexivity. Qed.

(** the teardown does not happen: after a broken pipe the snapshot
    still says [connected] and the socket handle is still there *)
Lemma io_failure_does_not_disconnect :
  ~ (forall (w : World) (x : exchange) (command : string),
       io_failure x = true ->
       connected (data (after (send_command x command) w)) = false /\
       socket (self (after (send_command x command) w)) = None).
Proof.
  intros H.
  destruct (H online x_broken "MDL" eq_refl) as [Hc _].
  vm_compute in Hc. discriminate Hc.
Qed.

(** ** A complete cycle *)

(** C5: when the link is up and the device answers [MDL,BCD325P2,],
    [VER,1.02.00,] and [STS,154.6700,60,NFM,8,2] (whatever white space
    surrounds the lines), the pull succeeds and the snapshot holds these
    values, with [connected] true and no [error]. In general an STS reply
    of six comma-free fields is parsed by position, as is
    [STS,462.5500,45,FM,12,3]. *)
Theorem end_to_end_cycle (w : World) (now : instant) (c : connect_outcome)
    (tm tv ts : string) (hd f1 f2 f3 f4 f5 : string) :
  link_up w c ->
  PyStr.strip tm = "MDL,BCD325P2," ->
  PyStr.strip tv = "VER,1.02.00," ->
  PyStr.strip ts = "STS,154.6700,60,NFM,8,2" ->
  Forall (fun p => PyStr.has_comma p = false) [hd; f1; f2; f3; f4; f5] ->
  let w' := after (pull_all_data now c (x_reply tm) (x_reply tv) (x_reply ts)) w in
  (outcome (pull_all_data now c (x_reply tm) (x_reply tv) (x_reply ts)) w
   = Ret true /\
   model (data w') = PyStr "BCD325P2" /\
   firmware (data w') = PyStr "1.02.00" /\
   frequency (data w') = Some "154.6700" /\
   signal_strength (data w') = Some "60" /\
   mode (data w') = Some "NFM" /\
   volume (data w') = Some "8" /\
   squelch (data w') = Some "2" /\
   connected (data w') = true /\
   error (data w') = None) /\
  parse_response (PyStr.join_comma [hd; f1; f2; f3; f4; f5]) "STS" =
    Ret (PyDict {| sts_frequency := Some f1; sts_signal_strength := Some f2;
                   sts_mode := Some f3; sts_volume := Some f4;
                   sts_squelch := Some f5 |}) /\
  parse_response "STS,462.5500,45,FM,12,3" "STS" =
    Ret (PyDict {| sts_frequency := Some "462.5500";
                   sts_signal_strength := Some "45";
                   sts_mode := Some "FM"; sts_volume := Some "12";
                   sts_squelch := Some "3" |}).
Proof.
  intros Hup Hm Hv Hs Hf w'. subst w'.
  assert (Pm : parse_response "MDL,BCD325P2," "MDL" = Ret (PyStr "BCD325P2"))
    by reflexivity.
  assert (Pv : parse_response "VER,1.02.00," "VER" = Ret (PyStr "1.02.00"))
    by reflexivity.
  assert (Ps : parse_response "STS,154.6700,60,NFM,8,2" "STS" =
               Ret (PyDict {| sts_frequency := Some "154.6700";
                              sts_signal_strength := Some "60";
                              sts_mode := Some "NFM"; sts_volume := Some "8";
                              sts_squelch := Some "2" |}))
    by reflexivity.
  assert (Hfold : forall d,
            folded (x_reply tm) (x_reply tv) (x_reply ts) (Some SockConnected) d =
            record_response "STS" "STS,154.6700,60,NFM,8,2"
              (set_status (Some "STS,154.6700,60,NFM,8,2")
                 (update {| sts_frequency := Some "154.6700";
                            sts_signal_strength := Some "60";
                            sts_mode := Some "NFM"; sts_volume := Some "8";
                            sts_squelch := Some "2" |}
                    (record_response "VER" "VER,1.02.00,"
                       (set_firmware (PyStr "1.02.00")
                          (record_response "MDL" "MDL,BCD325P2,"
                             (set_model (PyStr "BCD325P2") d))))))).
  { intros d. unfold folded, fold_status, fold_firmware, fold_model.
    cbn [reply_of x_reply x_send x_recv]. rewrite Hm, Hv, Hs.
    cbn [PyStr.truthy]. rewrite Pm, Pv, Ps. reflexivity. }
  split; [|split].
  - unfold link_up in Hup. unfold outcome, after.
    destruct (connected (data w)) eqn:Hc.
    + destruct Hup as [Hsock Herr].
      rewrite (pull_connected _ _ _ _ _ _ Hc), Hsock.
      cbn [fst snd]. rewrite data_put, Hfold.
      repeat split; try reflexivity; cbn; assumption.
    + subst c. rewrite (pull_disconnected _ _ _ _ _ _ Hc).
      cbn [fst snd]. rewrite data_put, Hfold.
      repeat split; reflexivity.
  - rewrite parse_response_STS, split_join by (congruence || exact Hf).
    reflexivity.
  - reflexivity.
Qed.

Lemma end_to_end_cycle_witness :
  link_up (boot "192.168.2.251" 10001%Z) ConnectOk /\
  PyStr.strip (line "MDL,BCD325P2,") = "MDL,BCD325P2," /\
  PyStr.strip (line "VER,1.02.00,") = "VER,1.02.00," /\
  PyStr.strip (line "STS,154.6700,60,NFM,8,2") = "STS,154.6700,60,NFM,8,2" /\
  Forall (fun p => PyStr.has_comma p = false)
         ["STS"; "462.5500"; "45"; "FM"; "12"; "3"] /\
  model (data seasoned) = PyStr "BCD325P2" /\
  squelch (data seasoned) = Some "2" /\
  connected (data seasoned) = true /\
  error (data seasoned) = None.
Proof.
  assert (Hup : link_up (boot "192.168.2.251" 10001%Z) ConnectOk)
    by reflexivity.
  assert (Hm : PyStr.strip (line "MDL,BCD325P2,") = "MDL,BCD325P2,")
    by reflexivity.
  assert (Hv : PyStr.strip (line "VER,1.02.00,") = "VER,1.02.00,")
    by reflexivity.
  assert (Hs : PyStr.strip (line "STS,154.6700,60,NFM,8,2")
               = "STS,154.6700,60,NFM,8,2") by reflexivity.
  assert (Hf : Forall (fun p => PyStr.has_comma p = false)
                 ["STS"; "462.5500"; "45"; "FM"; "12"; "3"])
    by (repeat constructor).
  destruct (end_to_end_cycle (boot "192.168.2.251" 10001%Z) 100%Z ConnectOk
              _ _ _ _ _ _ _ _ _ Hup Hm Hv Hs Hf)
    as ((_ & Hmodel & _ & _ & _ & _ & _ & Hsq & Hconn & Herr) & _).
  split; [exact Hup|]. split; [exact Hm|]. split; [exact Hv|].
  split; [exact Hs|]. split; [exact Hf|].
  split; [exact Hmodel|]. split; [exact Hsq|]. split; [exact Hconn|exact Herr].
Defined.

(** ** Stamping and publishing *)

Lemma bind_fail {A B} (m : M A) (k : A -> M B) (w w' : World) (e : exn) :
  m w = (Raise e, w') -> bind m k w = (Raise e, w').
Proof. unfold bind. intros ->. reflexivity. Qed.

Lemma prepared_data_file (env : cycle_env) (w : World) :
  data_file (prepared env w) = data_file w.
Proof.
  unfold prepared, after. destruct (connected (data w)); [reflexivity|].
  rewrite connect_run. destruct (env_connect env); reflexivity.
Qed.

Lemma cycled_facts (env : cycle_env) (w : World) :
  timestamp (data (cycled env w)) = Some (env_now env) /\
  data_file (cycled env w) =
    match env_save env with
    | SaveOk => Complete (data (cycled env w)) :: data_file w
    | OpenFails _ => data_file w
    | DumpFails _ => Damaged :: data_file w
    end.
Proof.
  unfold cycled.
  destruct (pull_stamps (env_now env) (env_reconnect env) (env_mdl env)
              (env_ver env) (env_sts env) (prepared env w)) as [Ht Hd].
  rewrite prepared_data_file in Hd.
  destruct (env_save env); cbn [saved data_file]; rewrite ?Hd; auto.
Qed.

(** the handler of the loop touches neither the timestamp nor the file *)
Lemma disconnect_frame (o : os_outcome) (w : World) :
  timestamp (data (after (disconnect o) w)) = timestamp (data w) /\
  data_file (after (disconnect o) w) = data_file w.
Proof.
  unfold after. rewrite disconnect_run. cbn [snd].
  destruct (socket (self w)) as [[]|]; destruct o; split; reflexivity.
Qed.

Lemma settled_facts (interval : duration) (env : cycle_env) (w : World) :
  timestamp (data (settled interval env w)) = Some (env_now env) /\
  data_file (settled interval env w) = data_file (cycled env w) /\
  (sleeps interval = true -> settled interval env w = cycled env w).
Proof.
  unfold settled. destruct (cycled_facts env w) as [Ht _].
  destruct (sleeps interval).
  - split; [exact Ht|]. split; reflexivity.
  - destruct (disconnect_frame (env_close env) (cycled env w)) as [H1 H2].
    rewrite H1, H2. split; [exact Ht|]. split; [reflexivity | discriminate].
Qed.

Lemma published_stamps_settled (interval : duration) (env : cycle_env)
    (w : World) :
  published_stamps (settled interval env w) =
    published_stamps w ++ map Some (stamp_written env).
Proof.
  unfold published_stamps, stamp_written.
  destruct (settled_facts interval env w) as (_ & -> & _).
  destruct (cycled_facts env w) as [Ht ->].
  destruct (env_save env); cbn [omap list_omap stamp_of rev map].
  - rewrite Ht. reflexivity.
  - rewrite app_nil_r. reflexivity.
  - rewrite app_nil_r. reflexivity.
Qed.

(** how the loop unfolds: each iteration ends in its settled world; the
    loop goes on, stops, or lets the interrupt of a cool-down out *)
Lemma continuous_scan_step (interval : duration) (env : cycle_env)
    (rest : list cycle_env) (w : World) :
  continuous_scan interval (env :: rest) w =
    if goes_on interval env
    then continuous_scan interval rest (settled interval env w)
    else (match verdict interval env with
          | Ret _ => Ret tt
          | Raise e => Raise e
          end, settled interval env w).
Proof.
  cbn [continuous_scan].
  pose proof (scan_once_run interval env w) as E.
  unfold goes_on, verdict in *.
  destruct (sleeps interval);
    [destruct (env_sleep env) | destruct (env_cooldown env)];
    first [ erewrite bind_run by exact E; reflexivity
          | erewrite bind_fail by exact E; reflexivity ].
Qed.

(** a property that every iteration keeps holds when the loop stops *)
Lemma continuous_scan_invariant (P : World -> Prop) (interval : duration)
    (envs : list cycle_env) (w : World) :
  (forall env v, env ∈ envs -> P v -> P (settled interval env v)) ->
  P w -> P (after (continuous_scan interval envs) w).
Proof.
  unfold after. revert w.
  induction envs as [|env rest IH]; intros w Hstep Hw; [exact Hw|].
  rewrite continuous_scan_step.
  assert (Hs : P (settled interval env w)).
  { apply Hstep; [apply list_elem_of_here | exact Hw]. }
  destruct (goes_on interval env); [|exact Hs].
  apply IH; [|exact Hs].
  intros e v He. apply Hstep. apply list_elem_of_further, He.
Qed.

Lemma continuous_scan_run (interval : duration) (envs : list cycle_env)
    (w : World) :
  published_stamps (after (continuous_scan interval envs) w) =
    published_stamps w ++ map Some (stamped interval envs).
Proof.
  unfold after. revert w.
  induction envs as [|env rest IH]; intros w.
  - cbn. rewrite app_nil_r. reflexivity.
  - rewrite continuous_scan_step. cbn [stamped].
    rewrite map_app, app_assoc, <- (published_stamps_settled interval env w).
    destruct (goes_on interval env).
    + apply IH.
    + cbn [snd map]. rewrite app_nil_r. reflexivity.
Qed.

Lemma stamped_sublist (interval : duration) (envs : list cycle_env) :
  stamped interval envs `sublist_of` map env_now envs.
Proof.
  induction envs as [|env rest IH]; [constructor|].
  cbn [stamped map].
  assert (Hrest : (if goes_on interval env then stamped interval rest else [])
                  `sublist_of` map env_now rest).
  { destruct (goes_on interval env); [exact IH | apply sublist_nil_l]. }
  unfold stamp_written. destruct (env_save env); cbn [app].
  - apply sublist_skip, Hrest.
  - apply sublist_cons, Hrest.
  - apply sublist_cons, Hrest.
Qed.

Lemma sublist_Sorted (k l : list Z) :
  k `sublist_of` l -> Sorted Z.le l -> Sorted Z.le k.
Proof.
  intros Hsub Hl. apply StronglySorted_Sorted.
  apply Sorted_StronglySorted in Hl; [|intros x y z; apply Z.le_trans].
  induction Hsub as [|x k l Hsub IH|x k l Hsub IH].
  - constructor.
  - apply StronglySorted_inv in Hl as [Hl Hx].
    constructor; [apply IH, Hl|].
    rewrite Forall_forall in Hx. rewrite Forall_forall.
    intros y Hy. apply Hx. eapply elem_of_sublist; eassumption.
  - apply StronglySorted_inv in Hl as [Hl _]. apply IH, Hl.
Qed.

(** C7 as amended: every iteration of the loop leaves the snapshot
    stamped with the instant that [pull_all_data] read from the clock
    (after the connect of the loop, when there is one), whatever its
    connects and exchanges did, and then hands that snapshot to the data
    file: the file holds it when the write succeeds, keeps its old
    content when [open] fails, and is left damaged when the dump fails.
    Over any number of iterations the timestamps published are clock
    readings of the iterations, in their order; they are non-decreasing
    provided the clock readings are. *)
Theorem every_cycle_stamps_and_publishes (interval : duration)
    (env : cycle_env) (w : World) (envs : list cycle_env) (w0 : World) :
  let w' := after (scan_once interval env) w in
  timestamp (data w') = Some (env_now env) /\
  (exists d : ScannerData,
     timestamp d = Some (env_now env) /\
     (sleeps interval = true -> d = data w') /\
     data_file w' =
       match env_save env with
       | SaveOk => Complete d :: data_file w
       | OpenFails _ => data_file w
       | DumpFails _ => Damaged :: data_file w
       end) /\
  exists ts : list instant,
    published_stamps (after (continuous_scan interval envs) w0)
    = published_stamps w0 ++ map Some ts /\
    ts `sublist_of` map env_now envs /\
    (Sorted Z.le (map env_now envs) -> Sorted Z.le ts).
Proof.
  intros w'. subst w'. unfold after at 1 2 3.
  rewrite scan_once_run. cbn [snd].
  destruct (settled_facts interval env w) as (Ht & Hd & Hsame).
  destruct (cycled_facts env w) as [Htc Hdc].
  split; [exact Ht|]. split.
  - exists (data (cycled env w)). split; [exact Htc|]. split.
    + intros Hi. rewrite (Hsame Hi). reflexivity.
    + rewrite Hd. exact Hdc.
  - exists (stamped interval envs).
    split; [apply continuous_scan_run|]. split; [apply stamped_sublist|].
    apply sublist_Sorted, stamped_sublist.
Qed.

Lemma every_cycle_stamps_and_publishes_witness :
  let w0 := boot "192.168.2.251" 10001%Z in
  let envs := [unreachable 1%Z; read_only 2%Z; steady 2%Z; steady 5%Z] in
  let w' := after (scan_once (Seconds 1) (unreachable 1%Z)) w0 in
  Sorted Z.le (map env_now envs) /\
  connected (data w') = false /\
  timestamp (data w') = Some 1%Z /\
  data_file w' = [Complete (data w')] /\
  exists ts : list instant,
    published_stamps (after (continuous_scan (Seconds 1) envs) w0)
    = map Some ts /\
    ts `sublist_of` [1; 2; 2; 5]%Z /\
    Sorted Z.le ts.
Proof.
  intros w0 envs w'.
  assert (Hclock : Sorted Z.le (map env_now envs)).
  { repeat first [constructor | discriminate]. }
  destruct (every_cycle_stamps_and_publishes (Seconds 1) (unreachable 1%Z)
              w0 envs w0)
    as (Ht & (d & _ & Hsame & Hd) & (ts & Hp & Hsub & Hs)).
  split; [exact Hclock|].
  split; [vm_compute; reflexivity|]. split; [exact Ht|]. split.
  - fold w' in Hd, Hsame. rewrite (Hsame eq_refl) in Hd. exact Hd.
  - exists ts. split; [exact Hp|]. split; [exact Hsub | exact (Hs Hclock)].
Defined.

(** C7 as stated fails, twice. An iteration whose [open] fails publishes
    nothing: the file is as it was. And the timestamps published follow
    the clock, which [datetime.now()] reads from the wall: when it steps
    back between two iterations, so does the published sequence. *)
Lemma publication_can_fail_and_step_back :
  ~ (forall (interval : duration) (env : cycle_env) (w : World),
       head (data_file (after (scan_once interval env) w))
       = Some (Complete (data (after (scan_once interval env) w)))) /\
  ~ (forall (interval : duration) (envs : list cycle_env) (w0 : World),
       data_file w0 = [] ->
       exists ts : list instant,
         published_stamps (after (continuous_scan interval envs) w0)
         = map Some ts /\
         Sorted Z.le ts).
Proof.
  split.
  - intros H.
    specialize (H (Seconds 1) (read_only 1%Z) (boot "192.168.2.251" 10001%Z)).
    vm_compute in H. discriminate H.
  - intros H.
    destruct (H (Seconds 1) [steady 5%Z; steady 2%Z]
                (boot "192.168.2.251" 10001%Z) eq_refl) as (ts & Hts & Hs).
    vm_compute in Hts.
    destruct ts as [|a [|b [|c ts]]]; try discriminate Hts.
    injection Hts as <- <-.
    apply Sorted_inv in Hs as [_ Hd]. apply HdRel_inv in Hd. lia.
Qed.

(** ** The loop keeps the link in order *)





(** * Further properties of the client *)

(** ** Framing and stripping *)

Lemma rev_app_append (s acc : string) :
  String.rev_app s acc = String.rev s +:+ acc.
Proof.
  unfold String.rev. revert acc.
  induction s as [|c s IH]; intros acc; [reflexivity|].
  cbn [String.rev_app]. rewrite (IH (String c acc)), (IH (String c "")).
  generalize (String.rev_app s "") as r. intros r.
  induction r as [|d r IHr]; [reflexivity|].
  change (String d r +:+ String c acc) with (String d (r +:+ String c acc)).
  rewrite IHr. reflexivity.
Qed.

Lemma append_empty_r (s : string) : s +:+ "" = s.
Proof.
  induction s as [|c s IH]; [reflexivity|].
  change (String c s +:+ "") with (String c (s +:+ "")). rewrite IH. reflexivity.
Qed.

Lemma append_assoc (a b c : string) : (a +:+ b) +:+ c = a +:+ (b +:+ c).
Proof.
  induction a as [|x a IH]; [reflexivity|].
  change (String x a +:+ b) with (String x (a +:+ b)).
  change (String x (a +:+ b) +:+ c) with (String x ((a +:+ b) +:+ c)).
  rewrite IH. reflexivity.
Qed.

Lemma rev_append (a b : string) :
  String.rev (a +:+ b) = String.rev b +:+ String.rev a.
Proof.
  induction a as [|x a IH].
  - change ("" +:+ b) with b. rewrite append_empty_r. reflexivity.
  - change (String x a +:+ b) with (String x (a +:+ b)).
    unfold String.rev at 1 3. cbn [String.rev_app].
    rewrite !rev_app_append, IH, append_assoc. reflexivity.
Qed.

Lemma rev_involutive (s : string) : String.rev (String.rev s) = s.
Proof.
  induction s as [|c s IH]; [reflexivity|].
  unfold String.rev at 2. cbn [String.rev_app].
  rewrite rev_app_append, rev_append, IH. reflexivity.
Qed.

Lemma endswith_CR_append (s : string) :
  PyStr.endswith (s +:+ String PyStr.CR "") (String PyStr.CR "") = true.
Proof.
  unfold PyStr.endswith. rewrite rev_append.
  change (String.rev (String PyStr.CR "") +:+ String.rev s)
    with (String PyStr.CR (String.rev s)).
  cbn. destruct (String.rev s); reflexivity.
Qed.

(** X1: the text handed to [sendall] is the command followed by one
    carriage return, unless the command already ends with one; it always
    ends with a carriage return and framing it again changes nothing. *)
Theorem command_is_framed_once (x : exchange) (command : string)
    (w : World) (s : sock) :
  socket (self w) = Some s ->
  wire (after (send_command x command) w) = WSend (framed command) :: wire w /\
  PyStr.endswith (framed command) (String PyStr.CR "") = true /\
  framed (framed command) = framed command /\
  (PyStr.endswith command (String PyStr.CR "") = false ->
   framed command = command +:+ String PyStr.CR "").
Proof.
  intros Hs. unfold after. rewrite send_command_run, Hs.
  split; [reflexivity|].
  assert (Hend : PyStr.endswith (framed command) (String PyStr.CR "") = true).
  { unfold framed.
    destruct (PyStr.endswith command (String PyStr.CR "")) eqn:E; cbn [negb].
    - exact E.
    - apply endswith_CR_append. }
  split; [exact Hend|]. split.
  - unfold framed at 1. rewrite Hend. reflexivity.
  - intros E. unfold framed. rewrite E. reflexivity.
Qed.

Lemma command_is_framed_once_witness :
  socket (self online) = Some SockConnected /\
  wire (after (send_command x_timeout "STS") online)
  = WSend (line "STS") :: wire online /\
  framed (line "STS") = line "STS".
Proof.
  assert (Hs : socket (self online) = Some SockConnected) by reflexivity.
  destruct (command_is_framed_once x_timeout "STS" online SockConnected Hs)
    as (Hw & _ & _ & _).
  split; [exact Hs|]. split; [exact Hw | reflexivity].
Defined.

Lemma lstrip_head (s : string) :
  PyStr.lstrip s = "" \/
  exists c r, PyStr.lstrip s = String c r /\ PyStr.isspace c = false.
Proof.
  induction s as [|c s IH]; [left; reflexivity|].
  cbn [PyStr.lstrip]. destruct (PyStr.isspace c) eqn:E; [exact IH|].
  right. exists c, s. split; [reflexivity | exact E].
Qed.

Lemma lstrip_idem (s : string) : PyStr.lstrip (PyStr.lstrip s) = PyStr.lstrip s.
Proof.
  destruct (lstrip_head s) as [-> | (c & r & -> & E)]; [reflexivity|].
  cbn [PyStr.lstrip]. rewrite E. reflexivity.
Qed.

Lemma lstrip_suffix (s : string) : exists ws, s = ws +:+ PyStr.lstrip s.
Proof.
  induction s as [|c s [ws IH]]; [exists ""; reflexivity|].
  cbn [PyStr.lstrip]. destruct (PyStr.isspace c).
  - exists (String c ws).
    change (String c ws +:+ PyStr.lstrip s) with (String c (ws +:+ PyStr.lstrip s)).
    rewrite <- IH. reflexivity.
  - exists "". reflexivity.
Qed.

Lemma rstrip_prefix (s : string) : exists ws, s = PyStr.rstrip s +:+ ws.
Proof.
  unfold PyStr.rstrip.
  destruct (lstrip_suffix (String.rev s)) as [ws H].
  exists (String.rev ws).
  rewrite <- rev_append, <- H, rev_involutive. reflexivity.
Qed.

Lemma rstrip_idem (s : string) : PyStr.rstrip (PyStr.rstrip s) = PyStr.rstrip s.
Proof.
  unfold PyStr.rstrip. rewrite rev_involutive, lstrip_idem. reflexivity.
Qed.

Lemma lstrip_rstrip_lstrip (s : string) :
  PyStr.lstrip (PyStr.rstrip (PyStr.lstrip s)) = PyStr.rstrip (PyStr.lstrip s).
Proof.
  destruct (rstrip_prefix (PyStr.lstrip s)) as [ws H].
  destruct (PyStr.rstrip (PyStr.lstrip s)) as [|c r] eqn:E; [reflexivity|].
  destruct (lstrip_head s) as [H0 | (c' & r' & H1 & Hc)].
  - rewrite H0 in H. discriminate H.
  - rewrite H1 in H.
    change (String c r +:+ ws) with (String c (r +:+ ws)) in H.
    injection H as -> _. cbn [PyStr.lstrip]. rewrite Hc. reflexivity.
Qed.

(** X2: a response returned by [send_command] has no white space left
    at either end (in particular no line terminator): stripping it again,
    on the left or on the right, gives the same string. *)
Theorem response_is_stripped (x : exchange) (command : string) (w : World)
    (r : string) :
  outcome (send_command x command) w = Ret (Some r) ->
  PyStr.lstrip r = r /\ PyStr.rstrip r = r /\ PyStr.strip r = r.
Proof.
  unfold outcome. rewrite send_command_run. cbn [fst]. intros [= H].
  assert (Hr : exists t, r = PyStr.strip t).
  { unfold reply_of in H.
    destruct (socket (self w)) as [[]|]; try discriminate H.
    destruct (x_send x); try discriminate H.
    destruct (x_recv x) as [|[t|]]; try discriminate H.
    injection H as <-. eauto. }
  destruct Hr as [t ->]. unfold PyStr.strip.
  assert (Hl := lstrip_rstrip_lstrip t). assert (Hrr := rstrip_idem (PyStr.lstrip t)).
  split; [exact Hl|]. split; [exact Hrr|]. rewrite Hl. exact Hrr.
Qed.

Lemma response_is_stripped_witness :
  outcome (send_command (x_reply (line "  MDL,HP1, ")) "MDL") online
  = Ret (Some "MDL,HP1,") /\
  PyStr.strip "MDL,HP1," = "MDL,HP1,".
Proof.
  assert (H : outcome (send_command (x_reply (line "  MDL,HP1, ")) "MDL") online
              = Ret (Some "MDL,HP1,")) by reflexivity.
  destruct (response_is_stripped _ _ _ _ H) as (_ & _ & Hs).
  split; [exact H | exact Hs].
Defined.

(** ** More on parsing *)

(** X3: for a mnemonic other than MDL, VER and STS, [parse_response]
    passes a non-empty response through unchanged, however many commas it
    holds, and gives [None] for the empty response. *)
Theorem parse_response_other_mnemonic (response command_type : string) :
  command_type <> "MDL" ->
  command_type <> "VER" ->
  command_type <> "STS" ->
  parse_response response command_type =
    Ret (if PyStr.truthy response then PyStr response else PyNone).
Proof.
  intros Hm Hv Hs. unfold parse_response, parse_body.
  apply String.eqb_neq in Hm, Hv, Hs. rewrite Hm, Hv, Hs.
  destruct response; reflexivity.
Qed.

Lemma parse_response_other_mnemonic_witness :
  "GLG" <> "MDL" /\ "GLG" <> "VER" /\ "GLG" <> "STS" /\
  parse_response "GLG,1545000,FM,0" "GLG" = Ret (PyStr "GLG,1545000,FM,0").
Proof.
  assert (Hm : "GLG" <> "MDL") by discriminate.
  assert (Hv : "GLG" <> "VER") by discriminate.
  assert (Hs : "GLG" <> "STS") by discriminate.
  split; [exact Hm|]. split; [exact Hv|]. split; [exact Hs|].
  exact (parse_response_other_mnemonic "GLG,1545000,FM,0" "GLG" Hm Hv Hs).
Defined.

Ltac shape_done :=
  split;
  [ split; intros X; first [reflexivity | discriminate X]
  | split;
    [ intros d X; first [discriminate X | split; [reflexivity | cbn; lia]]
    | intros s X;
      first [ discriminate X
            | injection X as <-;
              first [left; reflexivity | right; reflexivity] ] ] ].

(** X4: what [parse_response] can return. It never raises. The result is
    [None] exactly for the empty response; it is a dictionary only for an
    STS response with at least two fields; a string result is either the
    response itself or its field 1. *)
Theorem parse_response_shape (response command_type : string) (v : pyval) :
  parse_response response command_type = Ret v ->
  (v = PyNone <-> response = "") /\
  (forall d, v = PyDict d ->
     command_type = "STS" /\ (2 <= length (PyStr.split_comma response))%nat) /\
  (forall s, v = PyStr s ->
     s = response \/ PyStr.split_comma response !! 1%nat = Some s).
Proof.
  intros H.
  destruct (String.eqb_spec command_type "STS") as [->|Hs].
  { rewrite parse_response_STS in H. injection H as <-.
    destruct response as [|c r]; [cbn; shape_done|].
    cbn [PyStr.truthy].
    remember (PyStr.split_comma (String c r)) as parts eqn:Ep. clear Ep.
    destruct parts as [|h [|p tl]]; shape_done. }
  apply String.eqb_neq in Hs.
  unfold parse_response, parse_body in H. rewrite Hs in H.
  destruct response as [|c r]; [cbn in H; injection H as <-; shape_done|].
  cbn [PyStr.truthy negb andb] in H.
  remember (PyStr.split_comma (String c r)) as parts eqn:Ep. clear Ep.
  destruct (String.eqb command_type "MDL"), (String.eqb command_type "VER");
    destruct parts as [|h [|p tl]]; cbn in H; injection H as <-; shape_done.
Qed.

Lemma parse_response_shape_witness :
  parse_response "STS,154.6700" "STS" =
    Ret (PyDict {| sts_frequency := Some "154.6700";
                   sts_signal_strength := None; sts_mode := None;
                   sts_volume := None; sts_squelch := None |}) /\
  (2 <= length (PyStr.split_comma "STS,154.6700"))%nat.
Proof.
  assert (H : parse_response "STS,154.6700" "STS" =
    Ret (PyDict {| sts_frequency := Some "154.6700";
                   sts_signal_strength := None; sts_mode := None;
                   sts_volume := None; sts_squelch := None |}))
    by reflexivity.
  destruct (parse_response_shape _ _ _ H) as (_ & Hd & _).
  split; [exact H|]. exact (proj2 (Hd _ eq_refl)).
Defined.

(** X5: fields after the sixth of an STS response are ignored: the
    response parses like its first six fields alone. *)
Theorem parse_STS_ignores_trailing_fields
    (hd f1 f2 f3 f4 f5 : string) (more : list string) :
  Forall (fun p => PyStr.has_comma p = false)
         ([hd; f1; f2; f3; f4; f5] ++ more) ->
  parse_response (PyStr.join_comma ([hd; f1; f2; f3; f4; f5] ++ more)) "STS" =
    parse_response (PyStr.join_comma [hd; f1; f2; f3; f4; f5]) "STS" /\
  parse_response (PyStr.join_comma ([hd; f1; f2; f3; f4; f5] ++ more)) "STS" =
    Ret (PyDict {| sts_frequency := Some f1; sts_signal_strength := Some f2;
                   sts_mode := Some f3; sts_volume := Some f4;
                   sts_squelch := Some f5 |}).
Proof.
  intros Hall.
  assert (Hsix : Forall (fun p => PyStr.has_comma p = false)
                   [hd; f1; f2; f3; f4; f5]).
  { apply Forall_app in Hall as [H _]. exact H. }
  rewrite !parse_response_STS.
  rewrite (split_join ([hd; f1; f2; f3; f4; f5] ++ more)) by (discriminate || exact Hall).
  rewrite (split_join [hd; f1; f2; f3; f4; f5]) by (discriminate || exact Hsix).
  split; reflexivity.
Qed.

Lemma parse_STS_ignores_trailing_fields_witness :
  Forall (fun p => PyStr.has_comma p = false)
         (["STS"; "154.6700"; "60"; "NFM"; "8"; "2"] ++ ["P25"; "0"]) /\
  parse_response "STS,154.6700,60,NFM,8,2,P25,0" "STS" =
    parse_response "STS,154.6700,60,NFM,8,2" "STS".
Proof.
  assert (H : Forall (fun p => PyStr.has_comma p = false)
                (["STS"; "154.6700"; "60"; "NFM"; "8"; "2"] ++ ["P25"; "0"]))
    by (repeat constructor).
  split; [exact H|].
  exact (proj1 (parse_STS_ignores_trailing_fields _ _ _ _ _ _ _ H)).
Defined.

(** ** More on the three queries *)

Lemma truthy_nonempty (r : string) : r <> "" -> PyStr.truthy r = true.
Proof. destruct r; [congruence | reflexivity]. Qed.

Lemma reply_of_text (text : string) :
  reply_of (x_reply text) (Some SockConnected) = Some (PyStr.strip text).
Proof. reflexivity. Qed.

(** X6: every non-empty reply is recorded raw under its mnemonic in
    [all_responses], whatever [parse_response] makes of it, and the
    entries of the other mnemonics stay as they are; an STS reply is also
    stored raw in [status]. *)
Theorem getters_record_raw_reply (w : World) (text k : string) :
  socket (self w) = Some SockConnected ->
  PyStr.strip text <> "" ->
  let r := PyStr.strip text in
  all_responses (data (after (get_model (x_reply text)) w)) !! k
  = (if decide (k = "MDL") then Some r else all_responses (data w) !! k) /\
  all_responses (data (after (get_firmware (x_reply text)) w)) !! k
  = (if decide (k = "VER") then Some r else all_responses (data w) !! k) /\
  all_responses (data (after (get_status (x_reply text)) w)) !! k
  = (if decide (k = "STS") then Some r else all_responses (data w) !! k) /\
  status (data (after (get_status (x_reply text)) w)) = Some r.
Proof.
  intros Hs Hr r. unfold after.
  rewrite get_model_run, get_firmware_run, get_status_run, Hs.
  cbn [snd]. rewrite !data_put, reply_of_text. fold r.
  unfold fold_model, fold_firmware, fold_status.
  rewrite (truthy_nonempty r Hr).
  destruct (parse_response_total r "MDL") as [vm ->].
  destruct (parse_response_total r "VER") as [vv ->].
  destruct (parse_response_total r "STS") as [vs ->].
  destruct vs;
    cbn [record_response all_responses status set_status update set_model
         set_firmware];
    rewrite !lookup_insert;
    repeat split; repeat case_decide; congruence.
Qed.

Lemma getters_record_raw_reply_witness :
  socket (self seasoned) = Some SockConnected /\
  PyStr.strip (line "ERR") <> "" /\
  all_responses (data (after (get_status (x_reply (line "ERR"))) seasoned))
    !! "STS" = Some "ERR" /\
  all_responses (data (after (get_status (x_reply (line "ERR"))) seasoned))
    !! "MDL" = Some "MDL,BCD325P2," /\
  status (data (after (get_status (x_reply (line "ERR"))) seasoned))
  = Some "ERR".
Proof.
  assert (Hs : socket (self seasoned) = Some SockConnected) by reflexivity.
  assert (Hr : PyStr.strip (line "ERR") <> "") by discriminate.
  destruct (getters_record_raw_reply seasoned (line "ERR") "STS" Hs Hr)
    as (_ & _ & Hsts & Hstatus).
  destruct (getters_record_raw_reply seasoned (line "ERR") "MDL" Hs Hr)
    as (_ & _ & Hmdl & _).
  split; [exact Hs|]. split; [exact Hr|].
  split; [exact Hsts|]. split; [|exact Hstatus].
  rewrite Hmdl. vm_compute. reflexivity.
Defined.

(** X7: a reply that is empty once stripped (nothing but white space, or
    no bytes at all) is a response for [send_command] but counts as none
    for the three queries: the snapshot stays as it was. *)
Theorem blank_reply_keeps_snapshot (w : World) (text : string) :
  socket (self w) = Some SockConnected ->
  PyStr.strip text = "" ->
  outcome (send_command (x_reply text) "STS") w = Ret (Some "") /\
  data (after (get_model (x_reply text)) w) = data w /\
  data (after (get_firmware (x_reply text)) w) = data w /\
  data (after (get_status (x_reply text)) w) = data w.
Proof.
  intros Hs Hr. unfold outcome, after.
  rewrite send_command_run, get_model_run, get_firmware_run, get_status_run, Hs.
  cbn [fst snd]. rewrite !data_put, reply_of_text, Hr.
  repeat split; reflexivity.
Qed.

Lemma blank_reply_keeps_snapshot_witness :
  socket (self seasoned) = Some SockConnected /\
  PyStr.strip (line "  ") = "" /\
  data (after (get_status (x_reply (line "  "))) seasoned) = data seasoned.
Proof.
  assert (Hs : socket (self seasoned) = Some SockConnected) by reflexivity.
  assert (Hr : PyStr.strip (line "  ") = "") by reflexivity.
  destruct (blank_reply_keeps_snapshot seasoned (line "  ") Hs Hr)
    as (_ & _ & _ & H).
  split; [exact Hs|]. split; [exact Hr | exact H].
Defined.

(** ** More on one pull *)

(** X8: [pull_all_data] returns [False] only when it starts not
    connected and its connect fails; once connected it returns [True]
    whatever becomes of the three queries. *)
Theorem pull_all_data_result (now : instant) (c : connect_outcome)
    (xm xv xs : exchange) (w : World) :
  outcome (pull_all_data now c xm xv xs) w =
    Ret (connected (data w)
         || match c with ConnectOk => true | _ => false end).
Proof.
  unfold outcome. destruct (connected (data w)) eqn:Hc.
  - rewrite (pull_connected _ _ _ _ _ _ Hc). reflexivity.
  - rewrite (pull_disconnected _ _ _ _ _ _ Hc). destruct c; reflexivity.
Qed.

(** X9: in a cycle that starts connected and gets no response to any of
    the three queries, the pull still returns [True] and the snapshot
    keeps every value of the previous cycle; only [timestamp] moves. *)
Theorem silent_cycle_only_restamps (now : instant) (c : connect_outcome)
    (xm xv xs : exchange) (w : World) :
  connected (data w) = true ->
  outcome (send_command xm "MDL") w = Ret None ->
  outcome (send_command xv "VER") w = Ret None ->
  outcome (send_command xs "STS") w = Ret None ->
  outcome (pull_all_data now c xm xv xs) w = Ret true /\
  data (after (pull_all_data now c xm xv xs) w)
  = set_timestamp (Some now) (data w).
Proof.
  unfold outcome, after. rewrite !send_command_run. cbn [fst].
  intros Hc [= Hm] [= Hv] [= Hs].
  rewrite (pull_connected _ _ _ _ _ _ Hc). split; [reflexivity|].
  cbn [snd]. rewrite data_put. unfold folded. rewrite Hm, Hv, Hs. reflexivity.
Qed.

Lemma silent_cycle_only_restamps_witness :
  connected (data seasoned) = true /\
  outcome (send_command x_timeout "MDL") seasoned = Ret None /\
  outcome (send_command x_broken "VER") seasoned = Ret None /\
  outcome (send_command x_timeout "STS") seasoned = Ret None /\
  data (after (pull_all_data 200%Z ConnectOk x_timeout x_broken x_timeout)
              seasoned)
  = set_timestamp (Some 200%Z) (data seasoned).
Proof.
  assert (Hc : connected (data seasoned) = true) by reflexivity.
  assert (Hm : outcome (send_command x_timeout "MDL") seasoned = Ret None)
    by reflexivity.
  assert (Hv : outcome (send_command x_broken "VER") seasoned = Ret None)
    by reflexivity.
  assert (Hs : outcome (send_command x_timeout "STS") seasoned = Ret None)
    by reflexivity.
  split; [exact Hc|]. split; [exact Hm|]. split; [exact Hv|]. split; [exact Hs|].
  exact (proj2 (silent_cycle_only_restamps 200%Z ConnectOk _ _ _ _ Hc Hm Hv Hs)).
Defined.

(** ** More on the poll loop *)

Lemma prepared_run (env : cycle_env) (w : World) :
  prepared env w =
    if connected (data w) then w
    else match env_connect env with
         | ConnectOk =>
             put (Some SockConnected)
                 (fun d => set_error None (set_connected true d))
                 [WConnect (ip (self w)) (port (self w))] w
         | CreateFails m =>
             put (socket (self w))
                 (fun d => set_error (Some m) (set_connected false d)) [] w
         | ConnectFails e =>
             put (Some SockFresh)
                 (fun d => set_error (Some (str_exn (exn_of e)))
                             (set_connected false d))
                 [WConnect (ip (self w)) (port (self w))] w
         end.
Proof.
  unfold prepared, after. destruct (connected (data w)); [reflexivity|].
  rewrite connect_run. destruct (env_connect env); reflexivity.
Qed.









(** what it takes for the sleep of an iteration to be interrupted *)
Lemma sleep_interrupted (o : sleep_outcome) (interval : duration) (w : World) :
  outcome (sleep o interval) w = Raise KeyboardInterrupt ->
  sleeps interval = true /\ o = Interrupted.
Proof.
  unfold outcome, sleep, sleeps. destruct interval as [n|]; [|discriminate].
  rewrite Z.leb_antisym. destruct (n <? 0)%Z; [discriminate|].
  destruct o; [discriminate|]. intros _. split; reflexivity.
Qed.

(** X12: a [KeyboardInterrupt] during the sleep ends the loop after that
    iteration and without error: the iterations that would follow do not
    run, and the snapshot of the interrupted iteration was already handed
    to the data file. *)
Theorem interrupt_ends_loop (interval : duration) (env : cycle_env)
    (rest : list cycle_env) (w : World) :
  outcome (sleep (env_sleep env) interval) (cycled env w)
  = Raise KeyboardInterrupt ->
  continuous_scan interval (env :: rest) w = continuous_scan interval [env] w /\
  outcome (continuous_scan interval (env :: rest)) w = Ret tt /\
  published_stamps (after (continuous_scan interval (env :: rest)) w) =
    published_stamps w ++
    match env_save env with
    | SaveOk => [Some (env_now env)]
    | OpenFails _ | DumpFails _ => []
    end.
Proof.
  intros Hi. apply sleep_interrupted in Hi as [Hs Hi].
  unfold outcome, after. rewrite !continuous_scan_step.
  unfold goes_on, verdict. rewrite Hs, Hi. cbn [fst snd].
  rewrite published_stamps_settled. unfold stamp_written.
  split; [reflexivity|]. split; [reflexivity|].
  destruct (env_save env); reflexivity.
Qed.

Lemma interrupt_ends_loop_witness :
  let w := boot "192.168.2.251" 10001%Z in
  outcome (sleep (env_sleep (interrupted 4%Z)) (Seconds 1))
    (cycled (interrupted 4%Z) w) = Raise KeyboardInterrupt /\
  continuous_scan (Seconds 1) [interrupted 4%Z; steady 5%Z; steady 6%Z] w
  = continuous_scan (Seconds 1) [interrupted 4%Z] w /\
  published_stamps
    (after (continuous_scan (Seconds 1)
              [interrupted 4%Z; steady 5%Z; steady 6%Z]) w)
  = [Some 4%Z].
Proof.
  intros w.
  assert (Hi : outcome (sleep (env_sleep (interrupted 4%Z)) (Seconds 1))
                 (cycled (interrupted 4%Z) w) = Raise KeyboardInterrupt)
    by reflexivity.
  destruct (interrupt_ends_loop (Seconds 1) (interrupted 4%Z)
              [steady 5%Z; steady 6%Z] w Hi) as (Heq & _ & Hp).
  split; [exact Hi|]. split; [exact Heq | exact Hp].
Defined.


(** ** The snapshot agrees with the replies it records *)

Lemma coherent_boot (ip0 : string) (port0 : Z) : coherent (data (boot ip0 port0)).
Proof.
  unfold coherent. cbn. rewrite dom_empty_L, !lookup_empty.
  repeat split; [apply empty_subseteq | reflexivity..].
Qed.

Lemma coherent_fold_model (r : option string) (d : ScannerData) :
  coherent d -> coherent (fold_model r d).
Proof.
  intros (Hdom & Hst & Hm & Hf). unfold fold_model.
  destruct r as [r|]; [|repeat split; assumption].
  destruct (PyStr.truthy r); [|repeat split; assumption].
  destruct (parse_response r "MDL") as [v|ex] eqn:Hv; [|repeat split; assumption].
  unfold coherent. cbn [record_response set_model all_responses status model firmware].
  rewrite dom_insert_L, lookup_insert_eq, !lookup_insert_ne by (intros [=]).
  repeat split;
    [apply union_least; [apply union_subseteq_l', union_subseteq_l | exact Hdom]
    | exact Hst | | exact Hf].
  cbn. unfold parsed. rewrite Hv. reflexivity.
Qed.

Lemma coherent_fold_firmware (r : option string) (d : ScannerData) :
  coherent d -> coherent (fold_firmware r d).
Proof.
  intros (Hdom & Hst & Hm & Hf). unfold fold_firmware.
  destruct r as [r|]; [|repeat split; assumption].
  destruct (PyStr.truthy r); [|repeat split; assumption].
  destruct (parse_response r "VER") as [v|ex] eqn:Hv; [|repeat split; assumption].
  unfold coherent. cbn [record_response set_firmware all_responses status model firmware].
  rewrite dom_insert_L, lookup_insert_eq, !lookup_insert_ne by (intros [=]).
  repeat split;
    [apply union_least; [apply union_subseteq_l', union_subseteq_r | exact Hdom]
    | exact Hst | exact Hm |].
  cbn. unfold parsed. rewrite Hv. reflexivity.
Qed.

Lemma coherent_fold_status (r : option string) (d : ScannerData) :
  coherent d -> coherent (fold_status r d).
Proof.
  intros (Hdom & Hst & Hm & Hf). unfold fold_status.
  destruct r as [r|]; [|repeat split; assumption].
  destruct (PyStr.truthy r); [|repeat split; assumption].
  destruct (parse_response r "STS") as [v|ex] eqn:Hv; [|repeat split; assumption].
  unfold coherent.
  destruct v;
    cbn [record_response set_status update all_responses status model firmware];
    rewrite dom_insert_L, lookup_insert_eq, !lookup_insert_ne by (intros [=]);
    (repeat split;
       [apply union_least; [apply union_subseteq_r | exact Hdom]
       | exact Hm | exact Hf]).
Qed.

Lemma coherent_cycled (env : cycle_env) (w : World) :
  coherent (data w) -> coherent (data (cycled env w)).
Proof.
  intros H.
  assert (Hprep : coherent (data (prepared env w))).
  { rewrite prepared_run. destruct (connected (data w)); [exact H|].
    destruct (env_connect env); rewrite data_put; exact H. }
  set (v := prepared env w) in *.
  assert (Hfolded : forall xm xv xs sk d,
            coherent d -> coherent (folded xm xv xs sk d)).
  { intros. unfold folded.
    apply coherent_fold_status, coherent_fold_firmware, coherent_fold_model.
    assumption. }
  assert (Hpull : coherent (data (after (pull_all_data (env_now env)
            (env_reconnect env) (env_mdl env) (env_ver env) (env_sts env)) v))).
  { unfold after. destruct (connected (data v)) eqn:Hc.
    - rewrite (pull_connected _ _ _ _ _ _ Hc). cbn [snd]. rewrite data_put.
      apply Hfolded. exact Hprep.
    - rewrite (pull_disconnected _ _ _ _ _ _ Hc).
      destruct (env_reconnect env); cbn [snd]; rewrite data_put;
        try apply Hfolded; exact Hprep. }
  unfold cycled. fold v. destruct (env_save env); exact Hpull.
Qed.

(** the handler of the loop changes [connected] at most *)
Lemma coherent_settled (interval : duration) (env : cycle_env) (w : World) :
  coherent (data w) -> coherent (data (settled interval env w)).
Proof.
  intros H. apply (coherent_cycled env) in H.
  unfold settled. destruct (sleeps interval); [exact H|].
  unfold after. rewrite disconnect_run. cbn [snd].
  destruct (socket (self (cycled env w))) as [[]|];
    [destruct (env_close env) | destruct (env_close env) | | ];
    rewrite ?data_put; exact H.
Qed.

(** X13: the loop keeps the snapshot in agreement with the raw replies
    it records. After any number of iterations [all_responses] holds
    entries for MDL, VER and STS only, [status] is the recorded STS reply,
    and [model] and [firmware] are what [parse_response] makes of the
    recorded MDL and VER replies ([None] while none is recorded). This
    holds for every interval, also one that [time.sleep] refuses. *)
Theorem loop_keeps_snapshot_coherent (interval : duration)
    (envs : list cycle_env) (w : World) :
  coherent (data w) ->
  coherent (data (after (continuous_scan interval envs) w)).
Proof.
  apply (continuous_scan_invariant (fun v => coherent (data v))).
  intros env v _. apply coherent_settled.
Qed.

Lemma loop_keeps_snapshot_coherent_witness :
  let w := boot "192.168.2.251" 10001%Z in
  let envs := [unreachable 1%Z; steady 2%Z; steady 5%Z] in
  coherent (data w) /\
  status (data (after (continuous_scan (Seconds 1) envs) w))
  = all_responses (data (after (continuous_scan (Seconds 1) envs) w)) !! "STS".
Proof.
  intros w envs.
  assert (H : coherent (data w)) by apply coherent_boot.
  split; [exact H|].
  exact (proj1 (proj2 (loop_keeps_snapshot_coherent (Seconds 1) envs w H))).
Defined.

(** ** The link invariant at work *)


(** the side condition is needed: when [time.sleep] refuses the interval
    and the [close] of the handler fails, the snapshot goes on saying
    [connected] over a socket that is closed *)
Lemma failed_close_leaves_connected_set :
  let w := after (scan_once (Seconds (-1)) (stuck 1%Z))
             (boot "192.168.2.251" 10001%Z) in
  connected (data w) = true /\ socket (self w) = Some SockClosed.
Proof. vm_compute. split; reflexivity. Qed.

(** * Properties of the control server *)

Module ServerFacts.
Import Server.

Lemma reply_frame (env : req_env) (code : nat) (key value : string) (s : Srv) :
  processes (safter (reply env code key value) s) = processes s /\
  path (safter (reply env code key value) s) = path s /\
  served (safter (reply env code key value) s) = served s.
Proof.
  unfold safter, reply, send_response, send_header, end_headers, wfile_write,
    set_buffer, sget, sbind, processes.
  cbn. destruct (net env (writes s)); cbn; [repeat split; reflexivity|].
  destruct (net env (S (writes s))); cbn; repeat split; reflexivity.
Qed.

Lemma reply_run (env : req_env) (code : nat) (key value : string) (s : Srv) :
  reachable env ->
  reply env code key value s =
    (Done tt,
     {| scanner_process := scanner_process s; spawned := spawned s;
        signalled := signalled s; path := path s; headers_buffer := [];
        writes := S (S (writes s));
        sent := sent s ++
                [Head (headers_buffer s ++
                       [Status code; Header "Content-Type" "application/json";
                        Blank]);
                 Body key value];
        served := served s |}).
Proof.
  intros Hnet.
  unfold reply, send_response, send_header, end_headers, wfile_write,
    set_buffer, sget, sbind.
  cbn. rewrite !Hnet. cbn. rewrite <- !app_assoc. reflexivity.
Qed.

Lemma reply_processes (env : req_env) (code : nat) (key value : string)
    (s : Srv) (r : sres unit) (s' : Srv) :
  reply env code key value s = (r, s') -> processes s' = processes s.
Proof.
  intros E. destruct (reply_frame env code key value s) as (H & _).
  unfold safter in H. rewrite E in H. exact H.
Qed.

(** what is left of a request once its reply, and the 500 reply that
    follows a failed one, have been attempted: the processes are as
    before *)
Lemma replies_processes (env : req_env) (code : nat) (key value : string)
    (h : sexn -> SM unit) (s : Srv) :
  (forall e t, exists m, h e t = reply env 500 "error" m t) ->
  processes (snd (match reply env code key value s with
                  | (Done a, s') => (Done a, s')
                  | (Failed e, s') => h e s'
                  end)) = processes s.
Proof.
  intros Hh.
  destruct (reply env code key value s) as [[[]|e] s1] eqn:E1;
    apply reply_processes in E1; [exact E1|].
  destruct (Hh e s1) as [m ->].
  destruct (reply env 500 "error" m s1) as [r s2] eqn:E2.
  apply reply_processes in E2. cbn. congruence.
Qed.

(** X14: [start_scanner] starts a child exactly when no child is
    tracked, or the tracked one has exited, and [Popen] succeeds; the new
    child then becomes the tracked one. In every other case, and whatever
    becomes of the reply to the client, the processes are left as they
    were: a running child is never started twice, and none is signalled. *)
Theorem start_spawns_only_when_needed (env : req_env) (s : Srv) :
  processes (safter (start_scanner env) s) =
    match scanner_process s, polled env, popen env with
    | Some _, None, _ => processes s
    | _, _, None => (Some (spawned s), S (spawned s), signalled s)
    | _, _, Some _ => processes s
    end.
Proof.
  unfold safter, start_scanner, stry, sbind at 1, sget.
  assert (Hh : forall e t, exists m,
             (fun e => reply env 500 "error" (str_sexn e)) e t
             = reply env 500 "error" m t) by (intros; eauto).
  destruct (scanner_process s) as [h|] eqn:Hp;
    [destruct (polled env) as [code|]|];
    try (unfold sbind at 1, Popen; destruct (popen env) as [m|] eqn:Hpo;
         [ unfold sraise;
           destruct (reply env 500 "error" (str_sexn (SOSError m)) s)
             as [r s1] eqn:E; apply reply_processes in E; exact E
         | unfold sbind at 1, set_process;
           rewrite (replies_processes env 200 "status" "started" _ _ Hh);
           reflexivity ]).
  rewrite (replies_processes env 200 "status" "already running" _ _ Hh).
  destruct (popen env); reflexivity.
Qed.

(** X15: [stop_scanner] signals the tracked child, if there is one, and
    forgets it only when [wait] returns within its five seconds. When
    [wait] times out the handle stays in [scanner_process], so the child
    is still tracked; no child is ever started. *)
Theorem stop_forgets_only_exited_child (env : req_env) (s : Srv) :
  processes (safter (stop_scanner env) s) =
    match scanner_process s with
    | None => processes s
    | Some h =>
        (match waited env with Exited _ => None | StillRunning => Some h end,
         spawned s, h :: signalled s)
    end.
Proof.
  unfold safter, stop_scanner, stry, sbind at 1, sget.
  assert (Hh : forall e t, exists m,
             (fun e => reply env 500 "error" (str_sexn e)) e t
             = reply env 500 "error" m t) by (intros; eauto).
  destruct (scanner_process s) as [h|] eqn:Hp.
  - unfold sbind at 1 2 3, terminate, wait.
    destruct (waited env) as [code|]; cbn [sret sraise set_process].
    + rewrite (replies_processes env 200 "status" "stopped" _ _ Hh).
      reflexivity.
    + destruct (reply env 500 "error" _ _) as [r s1] eqn:E.
      apply reply_processes in E. cbn. rewrite E. unfold processes. cbn.
      rewrite Hp. reflexivity.
  - unfold sbind at 1, sret.
    rewrite (replies_processes env 200 "status" "stopped" _ _ Hh).
    unfold processes. rewrite Hp. reflexivity.
Qed.

Lemma reply_run_fresh (env : req_env) (code : nat) (key value : string)
    (s : Srv) :
  reachable env ->
  headers_buffer s = [] ->
  soutcome (reply env code key value) s = Done tt /\
  sent (safter (reply env code key value) s)
  = sent s ++ json_reply code key value /\
  headers_buffer (safter (reply env code key value) s) = [].
Proof.
  intros Hnet Hb. unfold soutcome, safter.
  rewrite (reply_run _ _ _ _ _ Hnet), Hb. repeat split; reflexivity.
Qed.

(** X16: to a client that takes every write, [start_scanner] and
    [stop_scanner] never raise and send exactly one JSON reply:
    200 "already running" when a tracked child still runs, 200 "started"
    when a child was started, 500 with the error text when [Popen]
    failed; 200 "stopped" when there was no child or it exited in time,
    500 with the time-out text when [wait] timed out. *)
Theorem control_replies (env : req_env) (s : Srv) :
  reachable env ->
  headers_buffer s = [] ->
  soutcome (start_scanner env) s = Done tt /\
  sent (safter (start_scanner env) s) =
    sent s ++
    match scanner_process s, polled env, popen env with
    | Some _, None, _ => json_reply 200 "status" "already running"
    | _, _, None => json_reply 200 "status" "started"
    | _, _, Some m => json_reply 500 "error" m
    end /\
  soutcome (stop_scanner env) s = Done tt /\
  sent (safter (stop_scanner env) s) =
    sent s ++
    match scanner_process s, waited env with
    | Some _, StillRunning => json_reply 500 "error" timeout_message
    | _, _ => json_reply 200 "status" "stopped"
    end.
Proof.
  intros Hnet Hb.
  unfold soutcome, safter, start_scanner, stop_scanner, stry, sbind, sget,
    Popen, set_process, terminate, wait, sret, sraise.
  destruct (scanner_process s) as [h|] eqn:Hp;
    destruct (polled env) as [code|];
    destruct (popen env) as [m|];
    destruct (waited env) as [c|];
    cbn beta iota;
    rewrite ?(reply_run _ _ _ _ _ Hnet); cbn beta iota;
    rewrite ?(reply_run _ _ _ _ _ Hnet);
    cbn [fst snd sent headers_buffer str_sexn]; rewrite ?Hb;
    repeat split; reflexivity.
Qed.

Lemma control_replies_witness :
  let s := next_request "/api/start"
             (safter (start_scanner quiet) (fresh "/api/start")) in
  reachable quiet /\
  headers_buffer s = [] /\
  sent (safter (start_scanner quiet) s)
  = json_reply 200 "status" "started"
    ++ json_reply 200 "status" "already running".
Proof.
  intros s.
  assert (Hnet : reachable quiet) by (intros k; reflexivity).
  assert (Hb : headers_buffer s = []) by reflexivity.
  destruct (control_replies quiet s Hnet Hb) as (_ & H & _).
  split; [exact Hnet|]. split; [exact Hb | exact H].
Defined.

(** X17: a POST to any path other than [/api/start] and [/api/stop] is
    answered with a bare 404 head and no body, and touches no process. *)
Theorem unknown_path_is_404 (env : req_env) (s : Srv) :
  well_formed env ->
  reachable env ->
  headers_buffer s = [] ->
  path s <> "/api/start" ->
  path s <> "/api/stop" ->
  soutcome (do_POST env) s = Done tt /\
  sent (safter (do_POST env) s) = sent s ++ [Head [Status 404; Blank]] /\
  processes (safter (do_POST env) s) = processes s.
Proof.
  intros [[n Hn] Hr] Hnet Hb H1 H2.
  apply String.eqb_neq in H1, H2.
  unfold soutcome, safter, do_POST, sbind, sget, sret.
  rewrite Hn, Hr. cbn beta iota. rewrite H1, H2.
  unfold send_response, end_headers, wfile_write, set_buffer, sbind, sget.
  cbn. rewrite Hnet, Hb. cbn. repeat split; reflexivity.
Qed.

Lemma unknown_path_is_404_witness :
  well_formed quiet /\ reachable quiet /\
  headers_buffer (fresh "/api/restart") = [] /\
  path (fresh "/api/restart") <> "/api/start" /\
  path (fresh "/api/restart") <> "/api/stop" /\
  sent (safter (do_POST quiet) (fresh "/api/restart"))
  = [Head [Status 404; Blank]].
Proof.
  assert (Hw : well_formed quiet) by (split; [exists 0%Z|]; reflexivity).
  assert (Hnet : reachable quiet) by (intros k; reflexivity).
  assert (Hb : headers_buffer (fresh "/api/restart") = []) by reflexivity.
  assert (H1 : path (fresh "/api/restart") <> "/api/start") by discriminate.
  assert (H2 : path (fresh "/api/restart") <> "/api/stop") by discriminate.
  destruct (unknown_path_is_404 quiet _ Hw Hnet Hb H1 H2) as (_ & H & _).
  split; [exact Hw|]. split; [exact Hnet|]. split; [exact Hb|].
  split; [exact H1|]. split; [exact H2 | exact H].
Defined.

(** X18: when the Content-Length header does not parse, or the body
    cannot be read, [do_POST] raises before it looks at the path: no
    reply is sent, not even a 4xx, and nothing else changes. *)
Theorem unreadable_request_aborts (env : req_env) (s : Srv) (e : sexn) :
  content_length env = Failed e \/
  ((exists n, content_length env = Done n) /\
   exists m, body_read env = Some m /\ e = SOSError m) ->
  do_POST env s = (Failed e, s).
Proof.
  unfold do_POST, sbind at 1.
  intros [H | [[n Hn] (m & Hm & ->)]].
  - rewrite H. reflexivity.
  - rewrite Hn. unfold sbind at 1. rewrite Hm. reflexivity.
Qed.

Lemma unreadable_request_aborts_witness :
  let env := {| content_length := Failed (ValueError
                  "invalid literal for int() with base 10: 'abc'");
                body_read := None; polled := None; popen := None;
                waited := Exited 0%Z; net := fun _ => None |} in
  sent (safter (do_POST env) (fresh "/api/start")) = [] /\
  processes (safter (do_POST env) (fresh "/api/start")) = (None, 0%nat, []).
Proof.
  intros env.
  assert (H : do_POST env (fresh "/api/start")
              = (Failed (ValueError
                   "invalid literal for int() with base 10: 'abc'"),
                 fresh "/api/start")).
  { apply unreadable_request_aborts. left. reflexivity. }
  unfold safter. rewrite H. split; reflexivity.
Defined.

End ServerFacts.
